(** * rich.syntax: a shallow embedding of [Syntax] and its rendering pipeline

    The development follows [rich/syntax.py].  Python values are modelled
    as follows:
    - [str] is a list of Unicode code points ([pystr]);
    - [int] is [Z];
    - a caught exception of a collaborator is an [option] whose [None]
      is the exception ([KeyError], [ClassNotFound], [OSError]);
    - the per-instance [_style_cache] dictionary is a [gmap] threaded
      through every method that reads or writes it ([St]);
    - a generator is the list of the values it yields. *)

From Stdlib Require Import ZArith QArith Qround List Ascii String.
From stdpp Require Import gmap strings list.

Local Open Scope Z_scope.

(** ** Python strings *)

Module Py.

Definition char := N.
Abbreviation pystr := (list N).

(** A literal made of ASCII characters. *)
Definition str (s : string) : pystr :=
  (fun a : ascii => N_of_ascii a) <$> list_ascii_of_string s.

Definition nl : char := 10%N.
Definition space : char := 32%N.
Definition tab : char := 9%N.

Definition len {A} (s : list A) : Z := Z.of_nat (length s).

(** [s.count(c)] for a one-character needle. *)
Fixpoint count (c : char) (s : pystr) : Z :=
  match s with
  | [] => 0
  | x :: s' => (if N.eqb x c then 1 else 0) + count c s'
  end.

(** [s * n]: the empty string when [n <= 0]. *)
Definition repeat (s : pystr) (n : Z) : pystr :=
  mjoin (replicate (Z.to_nat n) s).

(** [s.rjust(width)]: pad with spaces on the left, never truncate. *)
Definition rjust (s : pystr) (width : Z) : pystr :=
  if width <=? len s then s
  else replicate (Z.to_nat (width - len s)) space ++ s.

(** [s.startswith(p)] *)
Fixpoint startswith (s p : pystr) : bool :=
  match p, s with
  | [], _ => true
  | _ :: _, [] => false
  | y :: p', x :: s' => N.eqb x y && startswith s' p'
  end.

Definition digit (d : Z) : char := Z.to_N (48 + d).

(** The decimal digits of a non-negative integer, most significant
    first; [fuel] bounds the number of digits. *)
Fixpoint digits (fuel : nat) (n : Z) (acc : pystr) : pystr :=
  match fuel with
  | O => acc
  | S fuel' =>
      let acc' := digit (n mod 10) :: acc in
      if n <? 10 then acc' else digits fuel' (n / 10) acc'
  end.

Definition digits_fuel (n : Z) : nat := S (Z.to_nat (Z.log2 n)).

(** [str(n)] for an [int]. *)
Definition str_of_int (n : Z) : pystr :=
  if n <? 0 then 45%N :: digits (digits_fuel (- n)) (- n) []
  else digits (digits_fuel n) n [].

(** [d] is the number of decimal digits of the natural number [n]
    (one digit for [0]). *)
Definition decimal_digits (n d : Z) : Prop :=
  1 <= d /\ n < 10 ^ d /\ (d = 1 \/ 10 ^ (d - 1) <= n).

(** [enumerate(xs, start)] *)
Fixpoint enumerate {A} (xs : list A) (start : Z) : list (Z * A) :=
  match xs with
  | [] => []
  | x :: xs' => (start, x) :: enumerate xs' (start + 1)
  end.

(** Slice bound normalisation: a negative bound counts from the end,
    and every bound is clamped to [0 .. n]. *)
Definition clamp_index (n i : Z) : Z :=
  if i <? 0 then Z.max 0 (n + i) else Z.min i n.

(** [xs[lo:hi]] *)
Definition slice {A} (xs : list A) (lo hi : Z) : list A :=
  let n := len xs in
  let lo' := clamp_index n lo in
  let hi' := clamp_index n hi in
  take (Z.to_nat (hi' - lo')) (drop (Z.to_nat lo') xs).

(** A value in a boolean context, for an optional string. *)
Definition truthy (o : option pystr) : bool :=
  match o with
  | Some (_ :: _) => true
  | _ => false
  end.

End Py.

Import Py.

(** ** [textwrap.dedent] (Python standard library)

    The regular expressions of the library work line by line: [^] and
    [$] are used in multi-line mode, so a line is a maximal run of
    characters without a line break. *)

Module Textwrap.

Definition is_blank (c : char) : bool := N.eqb c space || N.eqb c tab.

(** [s.split("\n")] *)
Fixpoint lines_of (s : pystr) : list pystr :=
  match s with
  | [] => [[]]
  | c :: s' =>
      if N.eqb c nl then [] :: lines_of s'
      else match lines_of s' with
           | [] => [[c]]
           | l :: ls => (c :: l) :: ls
           end
  end.

(** ["\n".join(ls)] *)
Definition join_lines (ls : list pystr) : pystr :=
  match ls with
  | [] => []
  | l :: ls' => l ++ flat_map (fun x => nl :: x) ls'
  end.

(** [_whitespace_only_re.sub('', text)], on one line: a line made of
    blanks only is emptied. *)
Definition strip_blank_line (l : pystr) : pystr :=
  if forallb is_blank l then [] else l.

(** The longest prefix of blanks of a line, and what follows it. *)
Fixpoint span_blanks (l : pystr) : pystr * pystr :=
  match l with
  | c :: l' =>
      if is_blank c then let '(p, r) := span_blanks l' in (c :: p, r)
      else ([], l)
  | [] => ([], [])
  end.

(** [_leading_whitespace_re.findall(text)], on one line: the leading
    blanks of a line that has a character other than a blank. *)
Definition indent_of (l : pystr) : option pystr :=
  match span_blanks l with
  | (_, []) => None
  | (p, _ :: _) => Some p
  end.

(** [margin[:i]] at the first index [i] where [margin] and [indent]
    differ; [margin] itself when there is none. *)
Fixpoint cut_at_mismatch (margin indent : pystr) : pystr :=
  match margin, indent with
  | x :: margin', y :: indent' =>
      if N.eqb x y then x :: cut_at_mismatch margin' indent' else []
  | _, _ => margin
  end.

(** One round of the [for indent in indents] loop. *)
Definition update_margin (margin : option pystr) (indent : pystr)
  : option pystr :=
  match margin with
  | None => Some indent
  | Some m =>
      if startswith indent m then Some m
      else if startswith m indent then Some indent
      else Some (cut_at_mismatch m indent)
  end.

(** [re.sub(r'(?m)^' + margin, '', text)], on one line. *)
Definition strip_margin (margin l : pystr) : pystr :=
  if startswith l margin then drop (length margin) l else l.

Definition dedent (text : pystr) : pystr :=
  let ls := strip_blank_line <$> lines_of text in
  let indents := omap indent_of ls in
  let margin := foldl update_margin None indents in
  if truthy margin
  then join_lines (strip_margin (default [] margin) <$> ls)
  else join_lines ls.

End Textwrap.

(** ** [rich.color], [rich.style], [rich.text], [rich.console] *)

Definition ColorTriplet : Type := Z * Z * Z.

(** Modelled from the spec: [rich.color.Color] is not part of the source
    under study.  A colour is either the terminal default or an RGB
    triplet; [color_name] is the definition it was built from. *)
Record Color := mkColor {
  color_name : pystr;
  triplet : option ColorTriplet
}.

(** Modelled from the spec: [rich.style.Style] is not part of the source
    under study.  A style is a record of optional attributes; an
    attribute that is [None] is not set. *)
Record Style := mkStyle {
  _color : option Color;
  _bgcolor : option Color;
  bold : option bool;
  italic : option bool;
  underline : option bool
}.

(** [Style()] *)
Definition Style_empty : Style := mkStyle None None None None None.

(** Modelled from the spec: [Style.__add__], rightmost-wins override of
    the attributes the right operand sets. *)
Definition Style_add (a b : Style) : Style :=
  let pick {A} (x y : option A) := match y with Some _ => y | None => x end in
  mkStyle (pick (_color a) (_color b)) (pick (_bgcolor a) (_bgcolor b))
          (pick (bold a) (bold b)) (pick (italic a) (italic b))
          (pick (underline a) (underline b)).

(** Modelled from the spec: [Style.chain], the styles layered from left
    to right. *)
Definition Style_chain (styles : list Style) : Style :=
  foldl Style_add Style_empty styles.

Inductive Justify := JLeft | JCenter | JRight | JFull.

Record Span := mkSpan {
  span_start : Z;
  span_end : Z;
  span_style : Style
}.

(** Modelled from the spec: [rich.text.Text] is not part of the source
    under study.  A styled run is a plain string, styles attached to
    sub-ranges of it, a base style, a justification and a tab size. *)
Record Text := mkText {
  plain : pystr;
  spans : list Span;
  text_style : Style;
  justify : Justify;
  text_tab_size : Z
}.

(** [Text(text, justify=..., style=..., tab_size=...)] *)
Definition Text_init (text : pystr) (j : Justify) (style : Style)
  (tab_size : Z) : Text :=
  mkText text [] style j tab_size.

(** Modelled from the spec: [Text.append(fragment, style)] adds the
    fragment at the end of the run and tags it with [style]. *)
Definition Text_append (t : Text) (fragment : pystr) (style : Style) : Text :=
  let offset := len (plain t) in
  mkText (plain t ++ fragment)
         (spans t ++ [mkSpan offset (offset + len fragment) style])
         (text_style t) (justify t) (text_tab_size t).

(** [Segment(text, style=None)] *)
Record Segment := mkSegment {
  seg_text : pystr;
  seg_style : option Style
}.

Record ConsoleOptions := mkConsoleOptions {
  min_width : Z;
  max_width : Z
}.

(** Modelled from the spec: [ConsoleOptions.update(width=w)] fixes both
    bounds of the render width to [w]. *)
Definition options_update (o : ConsoleOptions) (width : Z) : ConsoleOptions :=
  mkConsoleOptions width width.

(** What [__console__] yields: a renderable or a display segment. *)
Inductive RenderItem :=
| RText (t : Text)
| RSegment (s : Segment).

(** The console handed to [__console__]: the reported colour capability
    and the two rendering primitives the method calls. *)
Record Console := mkConsole {
  color_system : option pystr;
  render : Text -> ConsoleOptions -> list Segment;
  render_lines : Text -> ConsoleOptions -> Style -> list (list Segment)
}.

(** Modelled from the spec: [rich._tools.iter_first] pairs every value
    with a flag that is true for the first one only. *)
Definition iter_first {A} (values : list A) : list (bool * A) :=
  match values with
  | [] => []
  | v :: vs => (true, v) :: ((fun x => (false, x)) <$> vs)
  end.

(** ** Pygments *)

Abbreviation token_type := (list string).

(** [pygments.token.Token.Text] *)
Definition Token_Text : token_type := ["Text"%string].

(** The dictionary [style_for_token] returns. *)
Record TokenStyle := mkTokenStyle {
  ts_color : option pystr;
  ts_bgcolor : option pystr;
  ts_bold : bool;
  ts_italic : bool;
  ts_underline : bool
}.

(** A Pygments style class; [style_for_token] is [None] where the class
    raises [KeyError]. *)
Record PygmentsStyle := mkPygmentsStyle {
  style_for_token : token_type -> option TokenStyle;
  background_color : pystr
}.

Record Lexer := mkLexer {
  name : pystr;
  get_tokens : pystr -> list (token_type * pystr)
}.

(** The collaborators [syntax.py] imports.  A lookup is [None] where the
    library raises [ClassNotFound]; [read_file] is [None] where opening
    or reading the file fails. *)
Class Collaborators := {
  get_lexer_by_name : pystr -> option Lexer;
  guess_lexer_for_filename : pystr -> pystr -> option Lexer;
  get_style_by_name : pystr -> option PygmentsStyle;
  Color_parse : pystr -> Color;
  Color_default : Color;
  Color_from_triplet : ColorTriplet -> Color;
  parse_rgb_hex : pystr -> ColorTriplet;
  blend_rgb : ColorTriplet -> ColorTriplet -> Q -> ColorTriplet;
  Text_split : Text -> pystr -> list Text;
  read_file : pystr -> pystr -> option pystr
}.

(** ** The [Syntax] class *)

(** The attributes [__init__] sets.  [_style_cache] is the only attribute
    written after construction: it is kept apart, as the state of the
    methods ([St]), and is empty on a new object. *)
Record Syntax := mkSyntax {
  code : pystr;
  lexer_name : pystr;
  dedent : bool;
  line_numbers : bool;
  start_line : Z;
  line_range : option (Z * Z);
  highlight_lines : gset Z;
  code_width : option Z;
  tab_size : Z;
  _pygments_style_class : PygmentsStyle;
  _background_color : pystr
}.

Abbreviation StyleCache := (gmap token_type Style).

(** A method that reads or writes [self._style_cache]. *)
Definition St (A : Type) : Type := StyleCache -> A * StyleCache.

Definition St_ret {A} (a : A) : St A := fun c => (a, c).

Definition St_bind {A B} (m : St A) (k : A -> St B) : St B :=
  fun c => let '(a, c') := m c in k a c'.

Notation "x <- m ;; k" := (St_bind m (fun x => k))
  (at level 100, m at next level, right associativity).

Definition DEFAULT_THEME : pystr := str "monokai".

(** The pointer of a highlighted line: U+2771 and a space. *)
Definition line_pointer : pystr := [10097%N; space].

Section Model.

Context {collab : Collaborators}.

(** Modelled from the spec: the constructor of [rich.style.Style], which
    is not part of the source under study.  A colour given as a string is
    parsed, a [Color] is taken as it is. *)
Definition Style_init (color bgcolor : option (pystr + Color))
  (bold italic underline : option bool) : Style :=
  let _make_color (c : pystr + Color) :=
    match c with inl s => Color_parse s | inr c' => c' end in
  mkStyle (_make_color <$> color) (_make_color <$> bgcolor)
          bold italic underline.

(** [Syntax.__init__]; [None] when even the style named [default] is
    unknown to Pygments, and [ClassNotFound] leaves the constructor. *)
Definition Syntax_init (code lexer_name : pystr)
  (theme : pystr + PygmentsStyle) (dedent line_numbers : bool)
  (start_line : Z) (line_range : option (Z * Z))
  (highlight_lines : option (gset Z)) (code_width : option Z)
  (tab_size : Z) : option Syntax :=
  let style_class :=
    match theme with
    | inr cls => Some cls
    | inl theme_name =>
        match get_style_by_name theme_name with
        | Some cls => Some cls
        | None => get_style_by_name (str "default")
        end
    end in
  match style_class with
  | None => None
  | Some cls =>
      Some (mkSyntax code lexer_name dedent line_numbers start_line
              line_range (default ∅ highlight_lines) code_width tab_size
              cls (background_color cls))
  end.

(** [Syntax.from_path].  The call [cls(...)] passes no [tab_size], so the
    constructor receives its keyword default, [4]. *)
Definition from_path (path encoding : pystr)
  (theme : pystr + PygmentsStyle) (dedent line_numbers : bool)
  (line_range : option (Z * Z)) (start_line : Z)
  (highlight_lines : option (gset Z)) (code_width : option Z)
  (tab_size : Z) : option Syntax :=
  match read_file path encoding with
  | None => None
  | Some code =>
      let lexer_name :=
        match guess_lexer_for_filename path code with
        | Some lexer => name lexer
        | None => str "default"
        end in
      Syntax_init code lexer_name theme dedent line_numbers start_line
        line_range highlight_lines code_width 4
  end.

(** [Syntax._get_theme_style] *)
Definition _get_theme_style (self : Syntax) (token_type : token_type)
  : St Style :=
  fun _style_cache =>
    match _style_cache !! token_type with
    | Some style => (style, _style_cache)
    | None =>
        let style :=
          match style_for_token (_pygments_style_class self) token_type with
          | None => Style_init None None None None None
          | Some pygments_style =>
              let color := ts_color pygments_style in
              let bgcolor := ts_bgcolor pygments_style in
              Style_init
                (Some (inl (if truthy color
                            then str "#" ++ default [] color
                            else str "#000000")))
                (Some (inl (if truthy bgcolor
                            then str "#" ++ default [] bgcolor
                            else _background_color self)))
                (Some (ts_bold pygments_style))
                (Some (ts_italic pygments_style))
                (Some (ts_underline pygments_style))
          end in
        (style, <[token_type := style]> _style_cache)
    end.

(** [Syntax._get_default_style] *)
Definition _get_default_style (self : Syntax) : St Style :=
  style <- _get_theme_style self Token_Text ;;
  St_ret (Style_add style
            (Style_init None
               (Some (inl (background_color (_pygments_style_class self))))
               None None None)).

(** The loop of [_highlight] over the tokens of the lexer. *)
Fixpoint append_tokens (self : Syntax) (tokens : list (token_type * pystr))
  (text : Text) : St Text :=
  match tokens with
  | [] => St_ret text
  | (token_type, token) :: tokens' =>
      style <- _get_theme_style self token_type ;;
      append_tokens self tokens' (Text_append text token style)
  end.

(** [Syntax._highlight] *)
Definition _highlight (self : Syntax) (lexer_name : pystr) : St Text :=
  default_style <- _get_default_style self ;;
  match get_lexer_by_name lexer_name with
  | None =>
      St_ret (Text_init (code self) JLeft default_style (tab_size self))
  | Some lexer =>
      append_tokens self (get_tokens lexer (code self))
        (Text_init [] JLeft default_style (tab_size self))
  end.

(** [Syntax._get_line_numbers_color]; [None] where the assertion on the
    triplet of the foreground colour fails. *)
Definition _get_line_numbers_color (self : Syntax) (blend : Q)
  : St (option Color) :=
  let background_color :=
    parse_rgb_hex (drop 1 (background_color (_pygments_style_class self))) in
  style <- _get_theme_style self Token_Text ;;
  match _color style with
  | None => St_ret (Some Color_default)
  | Some foreground_color =>
      match triplet foreground_color with
      | None => St_ret None
      | Some fg =>
          St_ret (Some (Color_from_triplet
                          (blend_rgb background_color fg blend)))
      end
  end.

(** [Syntax._numbers_column_width] *)
Definition _numbers_column_width (self : Syntax) : Z :=
  if line_numbers self
  then len (str_of_int (start_line self + count nl (code self))) + 2
  else 0.

(** [console.color_system in ("256", "truecolor")] *)
Definition has_full_colors (console : Console) : bool :=
  match color_system console with
  | Some s => bool_decide (s = str "256" \/ s = str "truecolor")
  | None => false
  end.

(** [Syntax._get_number_styles]; [None] where
    [_get_line_numbers_color] raises. *)
Definition _get_number_styles (self : Syntax) (console : Console)
  : St (option (Style * Style * Style)) :=
  let background_style :=
    Style_init None
      (Some (inl (background_color (_pygments_style_class self))))
      None None None in
  if has_full_colors console then
    text_style1 <- _get_theme_style self Token_Text ;;
    color1 <- _get_line_numbers_color self (3 # 10)%Q ;;
    match color1 with
    | None => St_ret None
    | Some c1 =>
        let number_style :=
          Style_chain [background_style; text_style1;
                       Style_init (Some (inr c1)) None None None None] in
        text_style2 <- _get_theme_style self Token_Text ;;
        color2 <- _get_line_numbers_color self (9 # 10)%Q ;;
        match color2 with
        | None => St_ret None
        | Some c2 =>
            let highlight_number_style :=
              Style_chain [background_style; text_style2;
                           Style_init (Some (inr c2)) None (Some true)
                             None None] in
            St_ret (Some (background_style, number_style,
                          highlight_number_style))
        end
    end
  else
    St_ret (Some (background_style,
                  Style_init None None None None None,
                  Style_init None None None None None)).

(** [Syntax.__measure__]: the bounds of a [Measurement]. *)
Definition __measure__ (self : Syntax) (console : Console) (max_width : Z)
  : Z * Z :=
  match code_width self with
  | Some w => let width := w + _numbers_column_width self in (width, width)
  | None => (max_width, max_width)
  end.

(** The body of the loop over the physical rows of one logical line. *)
Definition render_row (self : Syntax)
  (background_style number_style highlight_number_style : Style)
  (line_no : Z) (row : bool * list Segment) : list Segment :=
  let numbers_column_width := _numbers_column_width self in
  let padding :=
    mkSegment (repeat (str " ") numbers_column_width)
              (Some background_style) in
  let new_line := mkSegment [nl] None in
  let '(first, wrapped_line) := row in
  (if first then
     let line_column :=
       rjust (str_of_int line_no) (numbers_column_width - 2) ++ str " " in
     if bool_decide (line_no ∈ highlight_lines self) then
       [mkSegment line_pointer (Some number_style);
        mkSegment line_column (Some highlight_number_style)]
     else
       [mkSegment (str "  ") (Some highlight_number_style);
        mkSegment line_column (Some number_style)]
   else [padding])
  ++ wrapped_line ++ [new_line].

(** The logical lines [__console__] renders, each with its number: the
    split of the run, the slice of the line range, and [enumerate]. *)
Definition numbered_lines (self : Syntax) (text : Text) : list (Z * Text) :=
  let lines := Text_split text [nl] in
  let '(line_offset, lines) :=
    match line_range self with
    | Some (start_line, end_line) =>
        let line_offset := Z.max 0 (start_line - 1) in
        (line_offset, slice lines line_offset end_line)
    | None => (0, lines)
    end in
  enumerate lines (start_line self + line_offset).

(** The body of the loop over the logical lines. *)
Definition render_line (self : Syntax) (console : Console)
  (render_options : ConsoleOptions)
  (background_style number_style highlight_number_style : Style)
  (numbered : Z * Text) : list Segment :=
  let '(line_no, line) := numbered in
  let wrapped_lines :=
    render_lines console line render_options background_style in
  flat_map
    (render_row self background_style number_style highlight_number_style
       line_no)
    (iter_first wrapped_lines).

(** [Syntax.__console__]; the values the generator yields, or [None]
    where computing the number styles raises. *)
Definition __console__ (self : Syntax) (console : Console)
  (options : ConsoleOptions) : St (option (list RenderItem)) :=
  let code_width' :=
    match code_width self with
    | None => max_width options
    | Some w => w
    end in
  let code := code self in
  let code := if dedent self then Textwrap.dedent code else code in
  text <- _highlight self (lexer_name self) ;;
  if negb (line_numbers self) then
    match code_width self with
    | None => St_ret (Some [RText text])
    | Some _ =>
        St_ret (Some (RSegment <$>
                        render console text
                          (options_update options code_width')))
    end
  else
    let lines := numbered_lines self text in
    let numbers_column_width := _numbers_column_width self in
    let render_options :=
      options_update options (code_width' + numbers_column_width) in
    styles <- _get_number_styles self console ;;
    match styles with
    | None => St_ret None
    | Some (background_style, number_style, highlight_number_style) =>
        St_ret (Some (RSegment <$>
          flat_map
            (render_line self console render_options background_style
               number_style highlight_number_style)
            lines))
    end.


(** Every cached style is the one a new object resolves for its token
    type: what [_get_theme_style] maintains of [_style_cache]. *)
Definition cache_consistent (self : Syntax) (cache : StyleCache) : Prop :=
  forall token_type style,
    cache !! token_type = Some style ->
    style = (_get_theme_style self token_type ∅).1.

(** A method whose result is the same for every consistent cache, and
    which leaves a consistent cache: the cache is then a pure speed-up. *)
Definition cache_oblivious {A} (self : Syntax) (m : St A) : Prop :=
  forall c1 c2,
    cache_consistent self c1 -> cache_consistent self c2 ->
    (m c1).1 = (m c2).1 /\ cache_consistent self (m c1).2.

(** The [line_offset] of [__console__]: where the line range starts. *)
Definition range_offset (self : Syntax) : Z :=
  match line_range self with
  | Some (start_line, _) => Z.max 0 (start_line - 1)
  | None => 0
  end.

End Model.

(** ** A concrete environment

    A theme with two entries, no lexer at all, and a console whose
    primitives pad every row to the requested width. *)

Module Demo.

Definition hex_value (c : char) : Z :=
  let c := Z.of_N c in
  if (48 <=? c) && (c <=? 57) then c - 48
  else if (97 <=? c) && (c <=? 102) then c - 87
  else if (65 <=? c) && (c <=? 70) then c - 55
  else 0.

(** [rrggbb] to a triplet; black for anything else. *)
Definition hex_triplet (s : pystr) : ColorTriplet :=
  match s with
  | [r1; r0; g1; g0; b1; b0] =>
      (16 * hex_value r1 + hex_value r0,
       16 * hex_value g1 + hex_value g0,
       16 * hex_value b1 + hex_value b0)
  | _ => (0, 0, 0)
  end.

Definition parse_color (s : pystr) : Color :=
  match s with
  | 35%N :: hex => mkColor s (Some (hex_triplet hex))
  | _ => mkColor s None
  end.

(** Modelled from the spec: the blend of two triplets, each channel
    [bg * (1 - frac) + fg * frac] rounded to the nearest integer and
    clamped to [0 .. 255]; [rich.color.blend_rgb] is not part of the
    source under study. *)
Definition blend (bg fg : ColorTriplet) (frac : Q) : ColorTriplet :=
  let channel (b f : Z) : Z :=
    let q := (inject_Z b * (1 - frac) + inject_Z f * frac + (1 # 2))%Q in
    Z.max 0 (Z.min 255 (Qfloor q)) in
  let '(r1, g1, b1) := bg in
  let '(r2, g2, b2) := fg in
  (channel r1 r2, channel g1 g2, channel b1 b2).

(** The styles of one line: the spans that meet [lo .. hi), clipped and
    moved to the line. *)
Definition clip_spans (lo hi : Z) (ss : list Span) : list Span :=
  omap (fun sp =>
          let a := Z.max lo (span_start sp) in
          let b := Z.min hi (span_end sp) in
          if a <? b then Some (mkSpan (a - lo) (b - lo) (span_style sp))
          else None) ss.

Fixpoint split_at (t : Text) (offset : Z) (ls : list pystr) : list Text :=
  match ls with
  | [] => []
  | l :: ls' =>
      mkText l (clip_spans offset (offset + len l) (spans t))
             (text_style t) (justify t) (text_tab_size t)
      :: split_at t (offset + len l + 1) ls'
  end.

(** Modelled from the spec: [Text.split] cuts the run into its logical
    lines, no line break inside a line, the styles kept per sub-range;
    a final line break opens no further line. *)
Definition split_text (t : Text) (separator : pystr) : list Text :=
  let ls := Textwrap.lines_of (plain t) in
  let ls := match reverse ls with
            | [] :: (_ :: _) as rest => reverse rest
            | _ => ls
            end in
  split_at t 0 ls.

Definition monokai : PygmentsStyle :=
  mkPygmentsStyle
    (fun t =>
       if decide (t = Token_Text)
       then Some (mkTokenStyle (Some (str "f8f8f2")) None false false false)
       else if decide (t = ["Keyword"%string])
       then Some (mkTokenStyle (Some (str "66d9ef")) (Some []) true false false)
       else None)
    (str "#272822").

Definition collaborators : Collaborators := {|
  get_lexer_by_name := fun _ => None;
  guess_lexer_for_filename := fun _ _ => None;
  get_style_by_name := fun n =>
    if decide (n = str "monokai" \/ n = str "default") then Some monokai
    else None;
  Color_parse := parse_color;
  Color_default := mkColor (str "default") None;
  Color_from_triplet := fun t => mkColor (str "rgb") (Some t);
  parse_rgb_hex := hex_triplet;
  blend_rgb := blend;
  Text_split := split_text;
  read_file := fun path _ =>
    if decide (path = str "demo.txt") then Some (str "x = 1") else None
|}.

(** The rows of a string cut every [width] characters. *)
Fixpoint chunks (fuel : nat) (width : nat) (s : pystr) : list pystr :=
  match fuel with
  | O => [s]
  | S fuel' =>
      if (length s <=? width)%nat then [s]
      else take width s :: chunks fuel' width (drop width s)
  end.

(** Modelled from the spec: the wrap primitive of the console yields the
    physical rows of a line, each padded to the width of the options;
    [rich.console.Console] is not part of the source under study. *)
Definition render_lines (t : Text) (o : ConsoleOptions) (style : Style)
  : list (list Segment) :=
  let w := Z.to_nat (max_width o) in
  (fun row =>
     [mkSegment (row ++ replicate (w - length row) space) (Some style)])
    <$> chunks (length (plain t)) (Nat.max 1 w) (plain t).

Definition render (t : Text) (o : ConsoleOptions) : list Segment :=
  mjoin (render_lines t o (text_style t)).

Definition console : Console := mkConsole None render render_lines.

Definition truecolor_console : Console :=
  mkConsole (Some (str "truecolor")) render render_lines.

Definition options : ConsoleOptions := mkConsoleOptions 1 80.

(** The lines given, each closed by a line break. *)
Definition text_of (ls : list string) : pystr :=
  flat_map (fun l => str l ++ [nl]) ls.

(** The object [Syntax(code, "nolexer", theme=monokai, ...)] builds. *)
Definition syntax (code : pystr) (dedent line_numbers : bool)
  (start_line : Z) (line_range : option (Z * Z)) (highlight_lines : gset Z)
  (code_width : option Z) : Syntax :=
  mkSyntax code (str "nolexer") dedent line_numbers start_line line_range
    highlight_lines code_width 4 monokai (background_color monokai).

(** Two indented lines, dedent requested, no line numbers. *)
Definition indented : Syntax :=
  syntax (text_of ["    x"; "    y"]%string) true false 1 None ∅ None.

(** Two lines, numbered from 1, the code ten columns wide. *)
Definition numbered : Syntax :=
  syntax (text_of ["a"; "bb"]%string) false true 1 None ∅ (Some 10).

(** Six lines numbered from 10, of which the range (3, 5) is shown. *)
Definition ranged : Syntax :=
  syntax (text_of ["l1"; "l2"; "l3"; "l4"; "l5"; "l6"]%string) false true 10
    (Some (3, 5)) ∅ (Some 4).


(** A lexer that takes the first three characters for a keyword and the
    rest for text. *)
Definition prefix_lexer : Lexer :=
  mkLexer (str "prefix")
    (fun code => [(["Keyword"%string], take 3 code); (Token_Text, drop 3 code)]).

(** The environment above with [prefix_lexer] registered, and a style
    registry that knows no style but [default]. *)
Definition lexing_collaborators : Collaborators := {|
  get_lexer_by_name := fun n =>
    if decide (n = str "prefix") then Some prefix_lexer else None;
  guess_lexer_for_filename := fun path _ =>
    if decide (path = str "demo.txt") then Some prefix_lexer else None;
  get_style_by_name := fun n =>
    if decide (n = str "default") then Some monokai else None;
  Color_parse := parse_color;
  Color_default := mkColor (str "default") None;
  Color_from_triplet := fun t => mkColor (str "rgb") (Some t);
  parse_rgb_hex := hex_triplet;
  blend_rgb := blend;
  Text_split := split_text;
  read_file := fun path _ =>
    if decide (path = str "demo.txt") then Some (str "x = 1") else None
|}.

(** The code [def f] highlighted by the lexer named [prefix], numbered. *)
Definition lexed : Syntax :=
  mkSyntax (str "def f") (str "prefix") false true 1 None ∅ None 4
    monokai (background_color monokai).

(** A style class without any entry. *)
Definition bare : PygmentsStyle :=
  mkPygmentsStyle (fun _ => None) (str "#ffffff").

(** An object whose theme has no entry for [Token.Text]. *)
Definition unstyled : Syntax :=
  mkSyntax (str "x") (str "nolexer") false true 1 None ∅ None 4
    bare (background_color bare).


(** The text of each value [__console__] yields. *)
Definition item_text (item : RenderItem) : pystr :=
  match item with
  | RText t => plain t
  | RSegment s => seg_text s
  end.

(** What [__console__] yields for a new object, as texts. *)
Definition run (self : Syntax) (c : Console) : option (list pystr) :=
  match (__console__ (collab := collaborators) self c options ∅).1 with
  | Some items => Some (item_text <$> items)
  | None => None
  end.

End Demo.

(** ** Python strings: facts *)

Section PyFacts.

Lemma len_nonneg {A} (s : list A) : 0 <= len s.
Proof. unfold len. lia. Qed.

Lemma len_app {A} (s t : list A) : len (s ++ t) = len s + len t.
Proof. unfold len. rewrite length_app. lia. Qed.

Lemma count_nonneg c s : 0 <= count c s.
Proof.
  induction s as [|x s IH]; simpl; [lia|].
  destruct (N.eqb x c); lia.
Qed.

Lemma digits_S fuel n acc :
  digits (S fuel) n acc =
  if n <? 10 then digit (n mod 10) :: acc
  else digits fuel (n / 10) (digit (n mod 10) :: acc).
Proof. reflexivity. Qed.

Lemma digits_spec fuel : forall n acc,
  0 <= n < 2 ^ Z.of_nat (S fuel) ->
  exists d, len (digits (S fuel) n acc) = d + len acc /\ decimal_digits n d.
Proof.
  induction fuel as [|fuel IH]; intros n acc Hn.
  - exists 1. change (2 ^ Z.of_nat 1) with 2 in Hn.
    simpl. destruct (Z.ltb_spec n 10); [|lia].
    unfold len, decimal_digits. simpl length. split; [lia|].
    change (10 ^ 1) with 10. lia.
  - rewrite digits_S. destruct (Z.ltb_spec n 10) as [Hlt|Hge].
    + exists 1. unfold len, decimal_digits. simpl length. split; [lia|].
      change (10 ^ 1) with 10. lia.
    + assert (Hdiv : 0 <= n / 10 < 2 ^ Z.of_nat (S fuel)).
      { split; [apply Z.div_pos; lia|].
        apply Z.div_lt_upper_bound; [lia|].
        replace (Z.of_nat (S (S fuel))) with (Z.succ (Z.of_nat (S fuel))) in Hn
          by lia.
        rewrite Z.pow_succ_r in Hn by lia. lia. }
      destruct (IH (n / 10) (digit (n mod 10) :: acc) Hdiv)
        as (d & Hlen & Hd1 & Hup & Hlow).
      exists (d + 1). split.
      * rewrite Hlen. unfold len. simpl length. lia.
      * assert (H10 : 1 <= n / 10)
          by (apply Z.div_le_lower_bound; lia).
        assert (Hpow : 10 ^ (d - 1) <= n / 10).
        { destruct Hlow as [->|Hlow]; [change (10 ^ (1 - 1)) with 1; lia|lia]. }
        assert (E1 : 10 ^ (d + 1) = 10 * 10 ^ d)
          by (rewrite Z.pow_add_r by lia; lia).
        assert (E2 : 10 ^ d = 10 * 10 ^ (d - 1))
          by (rewrite <- Z.pow_succ_r by lia; f_equal; lia).
        unfold decimal_digits. split; [lia|].
        replace (d + 1 - 1) with d by lia. rewrite E1.
        pose proof (Z.div_mod n 10 ltac:(lia)) as Hdm.
        pose proof (Z.mod_pos_bound n 10 ltac:(lia)) as Hmod.
        split; [lia|right; lia].
Qed.

Lemma str_of_int_digits n :
  0 <= n -> decimal_digits n (len (str_of_int n)).
Proof.
  intros Hn. unfold str_of_int.
  destruct (Z.ltb_spec n 0) as [|_]; [lia|].
  unfold digits_fuel.
  destruct (digits_spec (Z.to_nat (Z.log2 n)) n []) as (d & Hlen & Hd).
  - split; [lia|].
    destruct (Z.eq_dec n 0) as [->|Hne].
    + simpl. lia.
    + replace (Z.of_nat (S (Z.to_nat (Z.log2 n)))) with (Z.succ (Z.log2 n)).
      * apply Z.log2_spec. lia.
      * pose proof (Z.log2_nonneg n). lia.
  - rewrite Hlen. change (len (@nil N)) with 0.
    replace (d + 0) with d by lia. exact Hd.
Qed.

(** The sign of a negative number is one more character. *)
Lemma str_of_int_negative n :
  n < 0 -> decimal_digits (- n) (len (str_of_int n) - 1).
Proof.
  intros Hn. unfold str_of_int.
  destruct (Z.ltb_spec n 0) as [_|]; [|lia].
  pose proof (str_of_int_digits (- n) ltac:(lia)) as Hd.
  unfold str_of_int in Hd.
  destruct (Z.ltb_spec (- n) 0) as [|_]; [lia|].
  replace (len (45%N :: digits (digits_fuel (- n)) (- n) []) - 1)
    with (len (digits (digits_fuel (- n)) (- n) []))
    by (unfold len; simpl length; lia).
  exact Hd.
Qed.

End PyFacts.

(** ** The style cache *)

Section Cache.

Context {collab : Collaborators}.

Lemma Style_init_empty : Style_init None None None None None = Style_empty.
Proof. reflexivity. Qed.

Lemma cache_consistent_empty self : cache_consistent self ∅.
Proof. intros t style Hl. rewrite lookup_empty in Hl. discriminate. Qed.

(** A hit returns the cached style and leaves the cache as it is. *)
Lemma _get_theme_style_hit self t cache style :
  cache !! t = Some style ->
  _get_theme_style self t cache = (style, cache).
Proof. intros Hl. unfold _get_theme_style. by rewrite Hl. Qed.

(** A miss resolves the style as a new object does, and stores it. *)
Lemma _get_theme_style_miss self t cache :
  cache !! t = None ->
  _get_theme_style self t cache =
  ((_get_theme_style self t ∅).1,
   <[t := (_get_theme_style self t ∅).1]> cache).
Proof.
  intros Hl. unfold _get_theme_style. rewrite Hl, lookup_empty. reflexivity.
Qed.

(** Whatever the cache holds, a token type resolves to one style. *)
Lemma _get_theme_style_stable self t cache :
  cache_consistent self cache ->
  (_get_theme_style self t cache).1 = (_get_theme_style self t ∅).1.
Proof.
  intros Hc. destruct (cache !! t) as [style|] eqn:Hl.
  - rewrite (_get_theme_style_hit _ _ _ _ Hl). simpl. by apply Hc.
  - by rewrite (_get_theme_style_miss _ _ _ Hl).
Qed.

Lemma _get_theme_style_consistent self t cache :
  cache_consistent self cache ->
  cache_consistent self (_get_theme_style self t cache).2.
Proof.
  intros Hc. destruct (cache !! t) as [style|] eqn:Hl.
  - by rewrite (_get_theme_style_hit _ _ _ _ Hl).
  - rewrite (_get_theme_style_miss _ _ _ Hl). simpl.
    intros t' style' Hl'.
    destruct (decide (t = t')) as [->|Hne].
    + rewrite lookup_insert_eq in Hl'. congruence.
    + rewrite lookup_insert_ne in Hl' by done. by apply Hc.
Qed.

Lemma append_tokens_consistent self tokens : forall text cache,
  cache_consistent self cache ->
  cache_consistent self (append_tokens self tokens text cache).2.
Proof.
  induction tokens as [|[t token] tokens IH]; intros text cache Hc.
  - exact Hc.
  - simpl. unfold St_bind.
    destruct (_get_theme_style self t cache) as [style cache'] eqn:Hg.
    apply IH. change cache' with (style, cache').2. rewrite <- Hg.
    by apply _get_theme_style_consistent.
Qed.

Lemma _highlight_consistent self lexer cache :
  cache_consistent self cache ->
  cache_consistent self (_highlight self lexer cache).2.
Proof.
  intros Hc. unfold _highlight, _get_default_style, St_bind, St_ret.
  destruct (_get_theme_style self Token_Text cache) as [style cache'] eqn:Hg.
  assert (Hc' : cache_consistent self cache').
  { change cache' with (style, cache').2. rewrite <- Hg.
    by apply _get_theme_style_consistent. }
  destruct (get_lexer_by_name lexer); [|exact Hc'].
  by apply append_tokens_consistent.
Qed.

Lemma _get_line_numbers_color_consistent self blend cache :
  cache_consistent self cache ->
  cache_consistent self (_get_line_numbers_color self blend cache).2.
Proof.
  intros Hc. unfold _get_line_numbers_color, St_bind, St_ret.
  pose proof (_get_theme_style_consistent self Token_Text cache Hc) as Hc'.
  destruct (_get_theme_style self Token_Text cache) as [style cache'].
  destruct (_color style) as [fg|]; [|exact Hc'].
  destruct (triplet fg); exact Hc'.
Qed.

Lemma _get_number_styles_consistent self console cache :
  cache_consistent self cache ->
  cache_consistent self (_get_number_styles self console cache).2.
Proof.
  intros Hc. unfold _get_number_styles, St_bind, St_ret.
  destruct (has_full_colors console); [|exact Hc].
  pose proof (_get_theme_style_consistent self Token_Text cache Hc) as H1.
  destruct (_get_theme_style self Token_Text cache) as [s1 c1].
  pose proof (_get_line_numbers_color_consistent self (3 # 10)%Q c1 H1) as H2.
  destruct (_get_line_numbers_color self (3 # 10)%Q c1) as [[col1|] c2];
    [|exact H2].
  pose proof (_get_theme_style_consistent self Token_Text c2 H2) as H3.
  destruct (_get_theme_style self Token_Text c2) as [s2 c3].
  pose proof (_get_line_numbers_color_consistent self (9 # 10)%Q c3 H3) as H4.
  destruct (_get_line_numbers_color self (9 # 10)%Q c3) as [[col2|] c4];
    exact H4.
Qed.

(** Rendering keeps the cache consistent: the invariant holds for every
    cache an object can have. *)
Lemma console_consistent self console options cache :
  cache_consistent self cache ->
  cache_consistent self (__console__ self console options cache).2.
Proof.
  intros Hc. unfold __console__, St_bind, St_ret.
  pose proof (_highlight_consistent self (lexer_name self) cache Hc) as H1.
  destruct (_highlight self (lexer_name self) cache) as [text c1].
  destruct (negb (line_numbers self)).
  - destruct (code_width self); exact H1.
  - pose proof (_get_number_styles_consistent self console c1 H1) as H2.
    destruct (_get_number_styles self console c1) as [[[[bg ns] hns]|] c2];
      exact H2.
Qed.

(** The constructor stores the background colour of the style class. *)
Lemma Syntax_init_background code lexer theme d ln sl lr hl cw ts self :
  Syntax_init code lexer theme d ln sl lr hl cw ts = Some self ->
  _background_color self = background_color (_pygments_style_class self).
Proof.
  unfold Syntax_init. intros Hi.
  repeat case_match; simplify_eq; reflexivity.
Qed.

End Cache.

(** ** The renderer *)

Section Renderer.

Context {collab : Collaborators}.

Lemma decimal_digits_unique n d1 d2 :
  decimal_digits n d1 -> decimal_digits n d2 -> d1 = d2.
Proof.
  intros (Hp1 & Hu1 & Hl1) (Hp2 & Hu2 & Hl2).
  destruct (Z.lt_trichotomy d1 d2) as [Hlt|[Heq|Hgt]]; [|exact Heq|].
  - destruct Hl2 as [->|Hl2]; [lia|].
    assert (10 ^ d1 <= 10 ^ (d2 - 1)) by (apply Z.pow_le_mono_r; lia). lia.
  - destruct Hl1 as [->|Hl1]; [lia|].
    assert (10 ^ d2 <= 10 ^ (d1 - 1)) by (apply Z.pow_le_mono_r; lia). lia.
Qed.




(** With line numbers, [__console__] highlights, computes the number
    styles, and renders the numbered lines at the width of the code plus
    the width of the numbers column. *)
Lemma console_with_line_numbers self console options cache :
  line_numbers self = true ->
  __console__ self console options cache =
  let '(text, cache1) := _highlight self (lexer_name self) cache in
  let '(styles, cache2) := _get_number_styles self console cache1 in
  (match styles with
   | Some (bg, ns, hns) =>
       Some (RSegment <$>
               flat_map
                 (render_line self console
                    (options_update options
                       (default (max_width options) (code_width self)
                        + _numbers_column_width self))
                    bg ns hns)
                 (numbered_lines self text))
   | None => None
   end, cache2).
Proof.
  intros Hln. unfold __console__, St_bind, St_ret. rewrite Hln. simpl.
  destruct (_highlight self (lexer_name self) cache) as [text cache1].
  destruct (_get_number_styles self console cache1) as [styles cache2].
  destruct styles as [[[bg ns] hns]|]; [|reflexivity].
  destruct (code_width self); reflexivity.
Qed.

Lemma append_tokens_ignores_dedent c lx d d' ln sl lr hl cw ts cls bg
  tokens : forall text cache,
  append_tokens (mkSyntax c lx d ln sl lr hl cw ts cls bg) tokens text cache =
  append_tokens (mkSyntax c lx d' ln sl lr hl cw ts cls bg) tokens text cache.
Proof.
  induction tokens as [|[t token] tokens IH]; intros text cache;
    [reflexivity|].
  simpl. unfold St_bind.
  change (_get_theme_style (mkSyntax c lx d ln sl lr hl cw ts cls bg) t cache)
    with (_get_theme_style (mkSyntax c lx d' ln sl lr hl cw ts cls bg) t cache).
  destruct (_get_theme_style _ t cache). apply IH.
Qed.

Lemma highlight_ignores_dedent c lx d d' ln sl lr hl cw ts cls bg lexer cache :
  _highlight (mkSyntax c lx d ln sl lr hl cw ts cls bg) lexer cache =
  _highlight (mkSyntax c lx d' ln sl lr hl cw ts cls bg) lexer cache.
Proof.
  unfold _highlight, St_bind.
  change (_get_default_style (mkSyntax c lx d ln sl lr hl cw ts cls bg) cache)
    with (_get_default_style (mkSyntax c lx d' ln sl lr hl cw ts cls bg) cache).
  destruct (_get_default_style _ cache) as [style cache1].
  destruct (get_lexer_by_name lexer); [|reflexivity].
  apply append_tokens_ignores_dedent.
Qed.

(** The dedent flag has no effect on what [__console__] yields. *)
Lemma console_ignores_dedent c lx d d' ln sl lr hl cw ts cls bg
  console options cache :
  __console__ (mkSyntax c lx d ln sl lr hl cw ts cls bg) console options cache =
  __console__ (mkSyntax c lx d' ln sl lr hl cw ts cls bg) console options cache.
Proof.
  unfold __console__, St_bind. cbn [lexer_name].
  rewrite (highlight_ignores_dedent c lx d d').
  destruct (_highlight _ lx cache) as [text cache1]. reflexivity.
Qed.

Lemma slice_2_5 {A} (xs : list A) : slice xs 2 5 = take 3 (drop 2 xs).
Proof.
  unfold slice, clamp_index, len. simpl.
  destruct xs as [|x1 [|x2 [|x3 [|x4 [|x5 xs]]]]]; try reflexivity.
  simpl length.
  replace (Z.to_nat (Z.min 5 (Z.of_nat (S (S (S (S (S (length xs)))))))
                     - Z.min 2 (Z.of_nat (S (S (S (S (S (length xs))))))))) with 3%nat by lia.
  replace (Z.to_nat (Z.min 2 (Z.of_nat (S (S (S (S (S (length xs))))))))) with 2%nat by lia.
  reflexivity.
Qed.

Lemma enumerate_take_3 {A} (xs : list A) n :
  enumerate (take 3 xs) n = zip [n; n + 1; n + 2] (take 3 xs).
Proof.
  destruct xs as [|x1 [|x2 [|x3 xs]]]; simpl; try reflexivity.
  replace (n + 1 + 1) with (n + 2) by lia. reflexivity.
Qed.

(** C3, amended: with line numbers and the line range (3, 5), the lines
    rendered are those at positions 3, 4 and 5 of the split run, as far
    as they exist, and their numbers are the start line plus 2, 3 and 4:
    the numbers 3, 4 and 5 when the start line is 1. *)
Theorem C3_line_range_3_5 (self : Syntax) (text : Text) :
  line_range self = Some (3, 5) ->
  numbered_lines self text =
  zip [start_line self + 2; start_line self + 3; start_line self + 4]
      (take 3 (drop 2 (Text_split text [nl]))).
Proof.
  intros Hr. unfold numbered_lines. rewrite Hr.
  change (Z.max 0 (3 - 1)) with 2.
  rewrite slice_2_5, enumerate_take_3.
  by replace (start_line self + 2 + 1) with (start_line self + 3) by lia;
     replace (start_line self + 2 + 2) with (start_line self + 4) by lia.
Qed.


(** C5: with line numbers the numbers column is two wider than the number
    of decimal digits of the start line plus the number of line breaks of
    the code; without line numbers it is zero wide.  The sum is a natural
    number for every start line from 0 on. *)
Theorem C5_numbers_column_width (self : Syntax) :
  0 <= start_line self + count nl (code self) ->
  if line_numbers self
  then decimal_digits (start_line self + count nl (code self))
         (_numbers_column_width self - 2)
  else _numbers_column_width self = 0.
Proof.
  intros Hs. unfold _numbers_column_width.
  destruct (line_numbers self); [|reflexivity].
  replace (len (str_of_int (start_line self + count nl (code self))) + 2 - 2)
    with (len (str_of_int (start_line self + count nl (code self)))) by lia.
  by apply str_of_int_digits.
Qed.


(** C7: for a token type the theme has an entry for, the resolved style
    has the colour of the entry, or black where the entry names none; the
    background of the entry, or the background of the theme where the
    entry names none; and the bold, italic and underline flags of the
    entry. *)
Theorem C7_theme_style_of_entry (self : Syntax) (cache : StyleCache)
  (t : token_type) (entry : TokenStyle) :
  cache_consistent self cache ->
  _background_color self = background_color (_pygments_style_class self) ->
  style_for_token (_pygments_style_class self) t = Some entry ->
  let style := (_get_theme_style self t cache).1 in
  _color style
  = Some (Color_parse
            match ts_color entry with
            | Some (c :: cs) => str "#" ++ c :: cs
            | _ => str "#000000"
            end) /\
  _bgcolor style
  = Some (Color_parse
            match ts_bgcolor entry with
            | Some (c :: cs) => str "#" ++ c :: cs
            | _ => background_color (_pygments_style_class self)
            end) /\
  bold style = Some (ts_bold entry) /\
  italic style = Some (ts_italic entry) /\
  underline style = Some (ts_underline entry).
Proof.
  intros Hc Hbg He style. subst style.
  rewrite (_get_theme_style_stable _ _ _ Hc).
  unfold _get_theme_style. rewrite lookup_empty, He, Hbg. cbn [fst].
  destruct (ts_color entry) as [[|c cs]|], (ts_bgcolor entry) as [[|b bs]|];
    repeat split; reflexivity.
Qed.

(** C8: for a token type the theme has no entry for, the resolved style
    is the empty style, and the method returns it. *)
Theorem C8_absent_token_style (self : Syntax) (cache : StyleCache)
  (t : token_type) :
  cache_consistent self cache ->
  style_for_token (_pygments_style_class self) t = None ->
  exists cache', _get_theme_style self t cache = (Style_empty, cache').
Proof.
  intros Hc He.
  exists (_get_theme_style self t cache).2.
  rewrite (surjective_pairing (_get_theme_style self t cache)).
  f_equal. rewrite (_get_theme_style_stable _ _ _ Hc).
  unfold _get_theme_style. rewrite lookup_empty, He. reflexivity.
Qed.

(** C9: for a lexer name Pygments does not know, highlighting returns the
    raw code as one run without spans, in the default style, justified
    left, with the tab size of the object; and rendering yields its
    output whenever the number styles, where they are needed, can be
    computed. *)
Theorem C9_unknown_lexer (self : Syntax) (console : Console)
  (options : ConsoleOptions) (cache : StyleCache) :
  get_lexer_by_name (lexer_name self) = None ->
  (_highlight self (lexer_name self) cache).1
  = mkText (code self) [] (_get_default_style self cache).1 JLeft
      (tab_size self) /\
  (line_numbers self = false \/
   is_Some (_get_number_styles self console
              (_highlight self (lexer_name self) cache).2).1 ->
   is_Some (__console__ self console options cache).1).
Proof.
  intros Hl. split.
  - unfold _highlight, St_bind, St_ret. rewrite Hl.
    destruct (_get_default_style self cache) as [style cache1]. reflexivity.
  - unfold __console__, St_bind, St_ret.
    destruct (_highlight self (lexer_name self) cache) as [text cache1].
    cbn [fst snd]. intros [Hln|Hns].
    + rewrite Hln. cbn [negb]. destruct (code_width self); by eexists.
    + destruct (line_numbers self); cbn [negb].
      * destruct (_get_number_styles self console cache1) as [styles cache2].
        cbn [fst] in Hns. destruct Hns as [[[bg ns] hns] ->]. by eexists.
      * destruct (code_width self); by eexists.
Qed.

(** C10: [from_path] does not depend on the tab size it is given, and the
    object it builds has the tab size 4. *)
Theorem C10_from_path_ignores_tab_size (path encoding : pystr)
  (theme : pystr + PygmentsStyle) (dedent line_numbers : bool)
  (line_range : option (Z * Z)) (start_line : Z)
  (highlight_lines : option (gset Z)) (code_width : option Z)
  (size size' : Z) :
  from_path path encoding theme dedent line_numbers line_range start_line
    highlight_lines code_width size
  = from_path path encoding theme dedent line_numbers line_range start_line
      highlight_lines code_width size' /\
  tab_size <$>
    from_path path encoding theme dedent line_numbers line_range start_line
      highlight_lines code_width size
  = (fun _ => 4) <$>
      from_path path encoding theme dedent line_numbers line_range start_line
        highlight_lines code_width size.
Proof.
  split; [reflexivity|].
  unfold from_path, Syntax_init.
  repeat case_match; simplify_eq; reflexivity.
Qed.

End Renderer.

(** ** Concrete inputs *)

(** C1: at the input with two lines indented by four spaces and dedent
    requested, the rendered text is the raw code with its indentation,
    although the dedented code is the two lines without it. *)
Theorem C1_dedent_not_applied :
  dedent Demo.indented = true /\
  code Demo.indented = Demo.text_of ["    x"; "    y"]%string /\
  Textwrap.dedent (code Demo.indented) = Demo.text_of ["x"; "y"]%string /\
  Demo.run Demo.indented Demo.console
  = Some [Demo.text_of ["    x"; "    y"]%string].
Proof. repeat split; vm_compute; reflexivity. Qed.

(** C2: at the input with two lines, line numbers and a code width of
    ten, the numbers column is three wide and every line is rendered at
    width thirteen, the code width plus the numbers column, where the
    measurement announces thirteen for the whole row. *)
Theorem C2_content_width_includes_gutter :
  code_width Demo.numbered = Some 10 /\
  _numbers_column_width Demo.numbered = 3 /\
  __measure__ Demo.numbered Demo.console 80 = (13, 13) /\
  Demo.run Demo.numbered Demo.console
  = Some [str "  "; str "1 "; str "a            "; [nl];
          str "  "; str "2 "; str "bb           "; [nl]] /\
  len (str "a            ") = 13.
Proof. repeat split; vm_compute; reflexivity. Qed.

(** C3 as stated fails: with a start line of ten, the lines of the range
    (3, 5) are numbered 12, 13 and 14. *)
Lemma C3_numbers_follow_start_line :
  line_range Demo.ranged = Some (3, 5) /\
  start_line Demo.ranged = 10 /\
  Demo.run Demo.ranged Demo.console
  = Some [str "  "; str "12 "; str "l3      "; [nl];
          str "  "; str "13 "; str "l4      "; [nl];
          str "  "; str "14 "; str "l5      "; [nl]] /\
  (numbered_lines (collab := Demo.collaborators) Demo.ranged
     (_highlight (collab := Demo.collaborators) Demo.ranged
        (lexer_name Demo.ranged) ∅).1).*1 <> [3; 4; 5].
Proof. repeat split; vm_compute; [reflexivity..|discriminate]. Qed.

Lemma C3_line_range_3_5_witness :
  numbered_lines (collab := Demo.collaborators) Demo.ranged
    (_highlight (collab := Demo.collaborators) Demo.ranged
       (lexer_name Demo.ranged) ∅).1 =
  zip [10 + 2; 10 + 3; 10 + 4]
      (take 3 (drop 2 (Demo.split_text
         (_highlight (collab := Demo.collaborators) Demo.ranged
            (lexer_name Demo.ranged) ∅).1 [nl]))).
Proof.
  apply (C3_line_range_3_5 (collab := Demo.collaborators) Demo.ranged).
  reflexivity.
Defined.


Lemma C5_numbers_column_width_witness :
  0 <= start_line Demo.numbered + count nl (code Demo.numbered) /\
  decimal_digits (start_line Demo.numbered + count nl (code Demo.numbered))
    (_numbers_column_width Demo.numbered - 2).
Proof.
  split; [vm_compute; discriminate|].
  apply (C5_numbers_column_width Demo.numbered). vm_compute. discriminate.
Defined.


Lemma C7_theme_style_of_entry_witness :
  _color (_get_theme_style (collab := Demo.collaborators) Demo.indented
            ["Keyword"%string] ∅).1
  = Some (Demo.parse_color (str "#66d9ef")) /\
  _bgcolor (_get_theme_style (collab := Demo.collaborators) Demo.indented
              ["Keyword"%string] ∅).1
  = Some (Demo.parse_color (str "#272822")) /\
  bold (_get_theme_style (collab := Demo.collaborators) Demo.indented
          ["Keyword"%string] ∅).1 = Some true /\
  italic (_get_theme_style (collab := Demo.collaborators) Demo.indented
            ["Keyword"%string] ∅).1 = Some false /\
  underline (_get_theme_style (collab := Demo.collaborators) Demo.indented
               ["Keyword"%string] ∅).1 = Some false.
Proof.
  apply (C7_theme_style_of_entry (collab := Demo.collaborators) Demo.indented
           ∅ ["Keyword"%string]
           (mkTokenStyle (Some (str "66d9ef")) (Some []) true false false)).
  - apply cache_consistent_empty.
  - reflexivity.
  - reflexivity.
Defined.

Lemma C8_absent_token_style_witness :
  exists cache',
    _get_theme_style (collab := Demo.collaborators) Demo.indented
      ["Comment"%string] ∅ = (Style_empty, cache').
Proof.
  apply (C8_absent_token_style (collab := Demo.collaborators) Demo.indented
           ∅ ["Comment"%string]).
  - apply cache_consistent_empty.
  - reflexivity.
Defined.

Lemma C9_unknown_lexer_witness :
  (_highlight (collab := Demo.collaborators) Demo.indented
     (lexer_name Demo.indented) ∅).1
  = mkText (code Demo.indented) []
      (_get_default_style (collab := Demo.collaborators) Demo.indented ∅).1
      JLeft (tab_size Demo.indented) /\
  is_Some (__console__ (collab := Demo.collaborators) Demo.indented
             Demo.console Demo.options ∅).1.
Proof.
  destruct (C9_unknown_lexer (collab := Demo.collaborators) Demo.indented
              Demo.console Demo.options ∅ eq_refl) as [Hh Hr].
  split; [exact Hh|]. apply Hr. left. reflexivity.
Defined.

(** The constructor builds the objects of the examples, whether the theme
    is given by its name or as a class. *)
Example syntax_constructed code d ln sl lr hl cw :
  Syntax_init (collab := Demo.collaborators) code (str "nolexer")
    (inl DEFAULT_THEME) d ln sl lr (Some hl) cw 4
  = Some (Demo.syntax code d ln sl lr hl cw) /\
  Syntax_init (collab := Demo.collaborators) code (str "nolexer")
    (inr Demo.monokai) d ln sl lr (Some hl) cw 4
  = Some (Demo.syntax code d ln sl lr hl cw).
Proof. split; reflexivity. Qed.

(** A file read with a tab size of 8 gives an object with a tab size
    of 4. *)
Example from_path_tab_size :
  tab_size <$>
    from_path (collab := Demo.collaborators) (str "demo.txt") (str "utf-8")
      (inl DEFAULT_THEME) true false None 1 None None 8
  = Some 4.
Proof. reflexivity. Qed.

Example str_of_int_samples :
  str_of_int 0 = str "0" /\ str_of_int 7 = str "7" /\
  str_of_int 10 = str "10" /\ str_of_int 1234 = str "1234" /\
  str_of_int (-52) = str "-52".
Proof. repeat split; reflexivity. Qed.

Example rjust_samples :
  rjust (str "12") 4 = str "  12" /\ rjust (str "12345") 4 = str "12345" /\
  rjust (str "7") (-1) = str "7".
Proof. repeat split; reflexivity. Qed.

Example slice_samples :
  slice [1; 2; 3; 4; 5; 6] 2 5 = [3; 4; 5] /\
  slice [1; 2; 3] 2 5 = [3] /\
  slice [1; 2; 3; 4] 0 (-1) = [1; 2; 3] /\
  slice [1; 2; 3] 5 9 = ([] : list Z).
Proof. repeat split; reflexivity. Qed.

Example dedent_samples :
  Textwrap.dedent (Demo.text_of ["  a"; "    b"; ""; "  c"]%string)
  = Demo.text_of ["a"; "  b"; ""; "c"]%string /\
  Textwrap.dedent (Demo.text_of ["  a"; "   "; "b"]%string)
  = Demo.text_of ["  a"; ""; "b"]%string.
Proof. split; reflexivity. Qed.

(** ** The style cache as a memo table *)

#[local] Set Warnings "-clear-no-such-hyp".

Section Memo.

Context {collab : Collaborators}.

(** X1: asking for the style of a token type a second time returns the
    same style and leaves the cache as the first call left it. *)
Theorem X1_theme_style_memoized (self : Syntax) (t : token_type)
  (cache : StyleCache) :
  _get_theme_style self t (_get_theme_style self t cache).2
  = _get_theme_style self t cache.
Proof.
  destruct (cache !! t) as [style|] eqn:Hl.
  - rewrite (_get_theme_style_hit _ _ _ _ Hl). cbn [snd].
    apply _get_theme_style_hit, Hl.
  - rewrite (_get_theme_style_miss _ _ _ Hl). cbn [snd].
    apply _get_theme_style_hit, lookup_insert_eq.
Qed.

Lemma theme_style_dom self t cache :
  dom (_get_theme_style self t cache).2 = dom cache ∪ {[t]}.
Proof.
  destruct (cache !! t) as [style|] eqn:Hl.
  - rewrite (_get_theme_style_hit _ _ _ _ Hl). cbn [snd].
    assert (t ∈ dom cache) by (apply elem_of_dom; eauto). set_solver.
  - rewrite (_get_theme_style_miss _ _ _ Hl). cbn [snd].
    rewrite dom_insert_L. set_solver.
Qed.

(** X2: a call adds the token type asked for to the keys of the cache,
    and nothing else; no entry is removed or replaced. *)
Theorem X2_theme_style_cache_grows (self : Syntax) (t : token_type)
  (cache : StyleCache) :
  dom (_get_theme_style self t cache).2 = dom cache ∪ {[t]} /\
  cache ⊆ (_get_theme_style self t cache).2.
Proof.
  destruct (cache !! t) as [style|] eqn:Hl.
  - rewrite (_get_theme_style_hit _ _ _ _ Hl). cbn [snd]. split; [|done].
    assert (t ∈ dom cache) by (apply elem_of_dom; eauto). set_solver.
  - rewrite (_get_theme_style_miss _ _ _ Hl). cbn [snd]. split.
    + rewrite dom_insert_L. set_solver.
    + by apply insert_subseteq.
Qed.

Lemma append_tokens_dom self tokens : forall text cache,
  dom (append_tokens self tokens text cache).2
  = dom cache ∪ list_to_set tokens.*1.
Proof.
  induction tokens as [|[t token] tokens IH]; intros text cache.
  - simpl. set_solver.
  - simpl. unfold St_bind.
    pose proof (theme_style_dom self t cache) as Hd.
    destruct (_get_theme_style self t cache) as [style cache'].
    cbn [snd] in Hd. rewrite IH, Hd. set_solver.
Qed.

(** X3: after highlighting, the keys of the cache are those it had, the
    token type [Text], and the token types of the lexer's stream. *)
Theorem X3_highlight_cache_keys (self : Syntax) (lexer : pystr)
  (cache : StyleCache) :
  dom (_highlight self lexer cache).2
  = dom cache ∪ {[Token_Text]} ∪
    match get_lexer_by_name lexer with
    | Some lx => list_to_set (get_tokens lx (code self)).*1
    | None => ∅
    end.
Proof.
  unfold _highlight, _get_default_style, St_bind, St_ret.
  pose proof (theme_style_dom self Token_Text cache) as Hd.
  destruct (_get_theme_style self Token_Text cache) as [style cache'].
  cbn [snd] in Hd.
  destruct (get_lexer_by_name lexer) as [lx|].
  - rewrite append_tokens_dom, Hd. reflexivity.
  - cbn [snd]. rewrite Hd. set_solver.
Qed.

(** *** The cache is a pure speed-up *)

Lemma oblivious_ret {A} self (a : A) : cache_oblivious self (St_ret a).
Proof. intros c1 c2 H1 H2. split; [reflexivity|exact H1]. Qed.

Lemma oblivious_bind {A B} self (m : St A) (k : A -> St B) :
  cache_oblivious self m ->
  (forall a, cache_oblivious self (k a)) ->
  cache_oblivious self (St_bind m k).
Proof.
  intros Hm Hk c1 c2 H1 H2. unfold St_bind.
  destruct (Hm c1 c2 H1 H2) as [Heq Hc1].
  destruct (Hm c2 c1 H2 H1) as [_ Hc2].
  destruct (m c1) as [a1 c1'], (m c2) as [a2 c2']. cbn [fst snd] in *.
  subst a2. exact (Hk a1 c1' c2' Hc1 Hc2).
Qed.

Lemma oblivious_theme_style self t :
  cache_oblivious self (_get_theme_style self t).
Proof.
  intros c1 c2 H1 H2. split.
  - rewrite (_get_theme_style_stable _ _ _ H1).
    by rewrite (_get_theme_style_stable _ _ _ H2).
  - by apply _get_theme_style_consistent.
Qed.

Lemma oblivious_default_style self :
  cache_oblivious self (_get_default_style self).
Proof.
  apply oblivious_bind; [apply oblivious_theme_style|].
  intros style. apply oblivious_ret.
Qed.

Lemma oblivious_append_tokens self tokens : forall text,
  cache_oblivious self (append_tokens self tokens text).
Proof.
  induction tokens as [|[t token] tokens IH]; intros text.
  - apply oblivious_ret.
  - simpl. apply oblivious_bind; [apply oblivious_theme_style|].
    intros style. apply IH.
Qed.

Lemma oblivious_highlight self lexer :
  cache_oblivious self (_highlight self lexer).
Proof.
  apply oblivious_bind; [apply oblivious_default_style|].
  intros style. destruct (get_lexer_by_name lexer).
  - apply oblivious_append_tokens.
  - apply oblivious_ret.
Qed.

Lemma oblivious_line_numbers_color self blend :
  cache_oblivious self (_get_line_numbers_color self blend).
Proof.
  apply oblivious_bind; [apply oblivious_theme_style|].
  intros style. destruct (_color style) as [fg|]; [|apply oblivious_ret].
  destruct (triplet fg); apply oblivious_ret.
Qed.

Lemma oblivious_number_styles self console :
  cache_oblivious self (_get_number_styles self console).
Proof.
  unfold _get_number_styles.
  destruct (has_full_colors console); [|apply oblivious_ret].
  apply oblivious_bind; [apply oblivious_theme_style|]. intros s1.
  apply oblivious_bind; [apply oblivious_line_numbers_color|].
  intros [c1|]; [|apply oblivious_ret].
  apply oblivious_bind; [apply oblivious_theme_style|]. intros s2.
  apply oblivious_bind; [apply oblivious_line_numbers_color|].
  intros [c2|]; apply oblivious_ret.
Qed.

Lemma oblivious_console self console options :
  cache_oblivious self (__console__ self console options).
Proof.
  unfold __console__.
  apply oblivious_bind; [apply oblivious_highlight|]. intros text.
  destruct (negb (line_numbers self)).
  - destruct (code_width self); apply oblivious_ret.
  - apply oblivious_bind; [apply oblivious_number_styles|].
    intros [[[bg ns] hns]|]; apply oblivious_ret.
Qed.

(** X4: rendering an object again, with the cache the first rendering
    left, yields what the first rendering yielded. *)
Theorem X4_render_twice (self : Syntax) (console : Console)
  (options : ConsoleOptions) (cache : StyleCache) :
  cache_consistent self cache ->
  (__console__ self console options
     (__console__ self console options cache).2).1
  = (__console__ self console options cache).1.
Proof.
  intros Hc.
  pose proof (console_consistent self console options cache Hc) as Hc'.
  by destruct (oblivious_console self console options _ _ Hc' Hc).
Qed.

(** X5: what highlighting returns is the same for every cache the object
    can have: the run for a new object. *)
Theorem X5_highlight_ignores_cache (self : Syntax) (lexer : pystr)
  (cache : StyleCache) :
  cache_consistent self cache ->
  (_highlight self lexer cache).1 = (_highlight self lexer ∅).1.
Proof.
  intros Hc.
  by destruct (oblivious_highlight self lexer _ _ Hc
                 (cache_consistent_empty self)).
Qed.

End Memo.

(** ** Construction *)

Section Construction.

Context {collab : Collaborators}.

(** X6: a theme name Pygments does not know is replaced by the style
    named [default]: the constructor builds what it builds for that
    name. *)
Theorem X6_unknown_theme_falls_back (code lexer theme : pystr)
  (d ln : bool) (sl : Z) (lr : option (Z * Z)) (hl : option (gset Z))
  (cw : option Z) (ts : Z) :
  get_style_by_name theme = None ->
  Syntax_init code lexer (inl theme) d ln sl lr hl cw ts
  = Syntax_init code lexer (inl (str "default")) d ln sl lr hl cw ts.
Proof.
  intros Hn. unfold Syntax_init. rewrite Hn.
  destruct (get_style_by_name (str "default")); reflexivity.
Qed.

(** X7: the constructor fails in one case only: the theme is a name, and
    Pygments knows neither that name nor the name [default]. *)
Theorem X7_constructor_fails_iff (code lexer : pystr)
  (theme : pystr + PygmentsStyle) (d ln : bool) (sl : Z)
  (lr : option (Z * Z)) (hl : option (gset Z)) (cw : option Z) (ts : Z) :
  Syntax_init code lexer theme d ln sl lr hl cw ts = None <->
  exists theme_name,
    theme = inl theme_name /\
    get_style_by_name theme_name = None /\
    get_style_by_name (str "default") = None.
Proof.
  unfold Syntax_init. split.
  - destruct theme as [theme_name|cls]; [|discriminate].
    destruct (get_style_by_name theme_name) eqn:Hn; [discriminate|].
    destruct (get_style_by_name (str "default")) eqn:Hd; [discriminate|].
    intros _. by exists theme_name.
  - intros (theme_name & -> & Hn & Hd). by rewrite Hn, Hd.
Qed.

(** The object the constructor builds keeps its arguments, has the empty
    set of highlighted lines where none is given, and stores the
    background colour of its style class. *)
Lemma Syntax_init_fields (source lexer : pystr)
  (theme : pystr + PygmentsStyle) (d ln : bool) (sl : Z)
  (lr : option (Z * Z)) (hl : option (gset Z)) (cw : option Z) (ts : Z)
  (self : Syntax) :
  Syntax_init source lexer theme d ln sl lr hl cw ts = Some self ->
  code self = source /\ lexer_name self = lexer /\
  dedent self = d /\ line_numbers self = ln /\ start_line self = sl /\
  line_range self = lr /\
  highlight_lines self = default ∅ hl /\
  code_width self = cw /\ tab_size self = ts /\
  _background_color self = background_color (_pygments_style_class self) /\
  match theme with
  | inr cls => _pygments_style_class self = cls
  | inl theme_name =>
      Some (_pygments_style_class self)
      = match get_style_by_name theme_name with
        | Some cls => Some cls
        | None => get_style_by_name (str "default")
        end
  end.
Proof.
  unfold Syntax_init. intros Hi.
  destruct theme as [theme_name|cls].
  - destruct (match get_style_by_name theme_name with
              | Some cls => Some cls
              | None => get_style_by_name (str "default")
              end) as [cls|]; [|discriminate].
    simplify_eq. repeat split.
  - simplify_eq. repeat split.
Qed.

(** X8: [from_path] fails when the file cannot be read, or when the
    constructor fails, and in no other case. *)
Theorem X8_from_path_fails_iff (path encoding : pystr)
  (theme : pystr + PygmentsStyle) (d ln : bool) (lr : option (Z * Z))
  (sl : Z) (hl : option (gset Z)) (cw : option Z) (ts : Z) :
  from_path path encoding theme d ln lr sl hl cw ts = None <->
  read_file path encoding = None \/
  exists theme_name,
    theme = inl theme_name /\
    get_style_by_name theme_name = None /\
    get_style_by_name (str "default") = None.
Proof.
  unfold from_path, Syntax_init.
  destruct (read_file path encoding) as [code|]; [|split; [by left|done]].
  split.
  - destruct theme as [theme_name|cls]; [|discriminate].
    destruct (get_style_by_name theme_name) eqn:Hn; [discriminate|].
    destruct (get_style_by_name (str "default")) eqn:Hd; [discriminate|].
    intros _. right. by exists theme_name.
  - intros [?|(theme_name & -> & Hn & Hd)]; [discriminate|].
    by rewrite Hn, Hd.
Qed.

(** X9: the object [from_path] builds has the content of the file as its
    code, the name of the lexer guessed for the file or [default] where
    none is guessed, and every option it was given but the tab size. *)
Theorem X9_from_path_fields (path encoding : pystr)
  (theme : pystr + PygmentsStyle) (d ln : bool) (lr : option (Z * Z))
  (sl : Z) (hl : option (gset Z)) (cw : option Z) (ts : Z) (self : Syntax) :
  from_path path encoding theme d ln lr sl hl cw ts = Some self ->
  read_file path encoding = Some (code self) /\
  lexer_name self
  = match guess_lexer_for_filename path (code self) with
    | Some lexer => name lexer
    | None => str "default"
    end /\
  dedent self = d /\ line_numbers self = ln /\ start_line self = sl /\
  line_range self = lr /\ highlight_lines self = default ∅ hl /\
  code_width self = cw.
Proof.
  unfold from_path. intros Hf.
  destruct (read_file path encoding) as [code|]; [|discriminate].
  apply Syntax_init_fields in Hf.
  destruct Hf as (-> & Hl & Hd & Hln & Hsl & Hlr & Hhl & Hcw & _).
  repeat split; assumption.
Qed.

End Construction.

(** ** Highlighting *)

Section Highlighting.

Context {collab : Collaborators}.

Lemma append_tokens_text self tokens : forall text cache,
  let result := (append_tokens self tokens text cache).1 in
  plain result = plain text ++ flat_map snd tokens /\
  text_style result = text_style text /\
  justify result = justify text /\
  text_tab_size result = text_tab_size text.
Proof.
  induction tokens as [|[t token] tokens IH]; intros text cache.
  - simpl. by rewrite app_nil_r.
  - simpl. unfold St_bind.
    destruct (_get_theme_style self t cache) as [style cache'].
    destruct (IH (Text_append text token style) cache')
      as (Hp & Hs & Hj & Ht).
    rewrite Hp, Hs, Hj, Ht. simpl. by rewrite <- app_assoc.
Qed.

(** X10: with a lexer Pygments knows, the text of the highlighted run is
    the fragments of the lexer's stream, in its order, one after the
    other; the run has the default style as its base style, is justified
    left, and has the tab size of the object. *)
Theorem X10_highlight_text (self : Syntax) (lexer : pystr) (lx : Lexer)
  (cache : StyleCache) :
  get_lexer_by_name lexer = Some lx ->
  let text := (_highlight self lexer cache).1 in
  plain text = flat_map snd (get_tokens lx (code self)) /\
  text_style text = (_get_default_style self cache).1 /\
  justify text = JLeft /\
  text_tab_size text = tab_size self.
Proof.
  intros Hl. unfold _highlight, St_bind. rewrite Hl.
  destruct (_get_default_style self cache) as [style cache'].
  apply (append_tokens_text self (get_tokens lx (code self))
           (Text_init [] JLeft style (tab_size self)) cache').
Qed.

Lemma append_tokens_spans self tokens : forall text cache,
  cache_consistent self cache ->
  forall k t fragment,
    tokens !! k = Some (t, fragment) ->
    spans (append_tokens self tokens text cache).1
      !! (length (spans text) + k)%nat
    = Some (mkSpan
              (len (plain text ++ flat_map snd (take k tokens)))
              (len (plain text ++ flat_map snd (take k tokens))
               + len fragment)
              (_get_theme_style self t ∅).1).
Proof.
  assert (Hkeep : forall tokens text cache i sp,
             spans text !! i = Some sp ->
             spans (append_tokens self tokens text cache).1 !! i = Some sp).
  { clear. intros tokens. induction tokens as [|[t token] tokens IH];
      intros text cache i sp Hsp; [exact Hsp|].
    simpl. unfold St_bind.
    destruct (_get_theme_style self t cache) as [style cache'].
    apply IH. simpl. by apply lookup_app_l_Some. }
  induction tokens as [|[t0 token0] tokens IH];
    intros text cache Hc k t fragment Hk; [by rewrite lookup_nil in Hk|].
  simpl. unfold St_bind.
  pose proof (_get_theme_style_stable self t0 cache Hc) as Hst.
  pose proof (_get_theme_style_consistent self t0 cache Hc) as Hc'.
  destruct (_get_theme_style self t0 cache) as [style cache'].
  cbn [fst snd] in Hst, Hc'.
  destruct k as [|k].
  - simpl in Hk. simplify_eq. apply Hkeep. simpl.
    rewrite Nat.add_0_r, app_nil_r.
    rewrite lookup_app_r by lia. by rewrite Nat.sub_diag.
  - simpl in Hk.
    specialize (IH (Text_append text token0 style) cache' Hc' k t fragment Hk).
    simpl in IH. rewrite length_app in IH. simpl in IH.
    replace (length (spans text) + S k)%nat
      with (length (spans text) + 1 + k)%nat by lia.
    rewrite IH. simpl. by rewrite <- app_assoc.
Qed.

(** X11: with a lexer Pygments knows, the fragment at position [k] of the
    lexer's stream is tagged, as span [k] of the run, from the end of
    the fragments before it to its own end, with the style its token
    type resolves to. *)
Theorem X11_highlight_spans (self : Syntax) (lexer : pystr) (lx : Lexer)
  (cache : StyleCache) (k : nat) (t : token_type) (fragment : pystr) :
  cache_consistent self cache ->
  get_lexer_by_name lexer = Some lx ->
  get_tokens lx (code self) !! k = Some (t, fragment) ->
  spans (_highlight self lexer cache).1 !! k
  = Some (mkSpan
            (len (flat_map snd (take k (get_tokens lx (code self)))))
            (len (flat_map snd (take k (get_tokens lx (code self))))
             + len fragment)
            (_get_theme_style self t ∅).1).
Proof.
  intros Hc Hl Hk. unfold _highlight, St_bind. rewrite Hl.
  pose proof (oblivious_default_style self cache cache Hc Hc) as [_ Hc'].
  destruct (_get_default_style self cache) as [style cache'].
  cbn [snd] in Hc'.
  apply (append_tokens_spans self _ (Text_init [] JLeft style (tab_size self))
           cache' Hc' k t fragment Hk).
Qed.

(** X12: the default style always has the background of the theme, also
    where the theme has no entry for [Text]; its other attributes are
    those the token type [Text] resolves to. *)
Theorem X12_default_style (self : Syntax) (cache : StyleCache) :
  let style := (_get_default_style self cache).1 in
  let text_style := (_get_theme_style self Token_Text cache).1 in
  _bgcolor style
  = Some (Color_parse (background_color (_pygments_style_class self))) /\
  _color style = _color text_style /\
  bold style = bold text_style /\
  italic style = italic text_style /\
  underline style = underline text_style.
Proof.
  unfold _get_default_style, St_bind, St_ret.
  destruct (_get_theme_style self Token_Text cache) as [style cache'].
  cbn [fst]. unfold Style_add, Style_init. cbn.
  repeat split.
Qed.

End Highlighting.

(** ** The numbers column *)

Section NumbersColumn.

Context {collab : Collaborators}.

(** X13: the colour of the line numbers is the default colour where the
    theme has no entry for [Text]; where it has one, it is the blend of
    the background of the theme, read without its first character, and
    the triplet of the colour of the entry (black where the entry names
    none), and computing it fails where that colour has no triplet. *)
Theorem X13_line_numbers_color (self : Syntax) (blend : Q)
  (cache : StyleCache) :
  cache_consistent self cache ->
  (_get_line_numbers_color self blend cache).1
  = match style_for_token (_pygments_style_class self) Token_Text with
    | None => Some Color_default
    | Some entry =>
        (fun fg =>
           Color_from_triplet
             (blend_rgb
                (parse_rgb_hex
                   (drop 1 (background_color (_pygments_style_class self))))
                fg blend))
          <$> triplet (Color_parse
                         match ts_color entry with
                         | Some (c :: cs) => str "#" ++ c :: cs
                         | _ => str "#000000"
                         end)
    end.
Proof.
  intros Hc. unfold _get_line_numbers_color, St_bind, St_ret.
  pose proof (_get_theme_style_stable self Token_Text cache Hc) as Hst.
  destruct (_get_theme_style self Token_Text cache) as [style cache'].
  cbn [fst] in Hst. subst style.
  unfold _get_theme_style. rewrite lookup_empty. cbn [fst].
  destruct (style_for_token (_pygments_style_class self) Token_Text)
    as [entry|]; [|reflexivity].
  cbn [Style_init _color fmap option_fmap option_map].
  destruct (ts_color entry) as [[|c cs]|]; simpl;
    match goal with
    | |- context [triplet ?col] => destruct (triplet col)
    end; reflexivity.
Qed.




(** X15: where the console reports 256 colours or true colour and the
    number styles can be computed, the background style sets the
    background of the theme and nothing else; the number style has the
    colour blended at 3/10, the highlight number style is bold and has
    the colour blended at 9/10, and both have a background. *)
Theorem X15_number_styles_full_colors (self : Syntax) (console : Console)
  (cache : StyleCache) (bg ns hns : Style) :
  cache_consistent self cache ->
  has_full_colors console = true ->
  (_get_number_styles self console cache).1 = Some (bg, ns, hns) ->
  bg = mkStyle None
         (Some (Color_parse (background_color (_pygments_style_class self))))
         None None None /\
  _color ns = (_get_line_numbers_color self (3 # 10)%Q ∅).1 /\
  _color hns = (_get_line_numbers_color self (9 # 10)%Q ∅).1 /\
  bold hns = Some true /\
  is_Some (_bgcolor ns) /\ is_Some (_bgcolor hns).
Proof.
  intros Hc Hf. unfold _get_number_styles, St_bind, St_ret. rewrite Hf.
  pose proof (_get_theme_style_consistent self Token_Text cache Hc) as H1.
  destruct (_get_theme_style self Token_Text cache) as [s1 c1].
  cbn [snd] in H1.
  pose proof (oblivious_line_numbers_color self (3 # 10)%Q c1 ∅ H1
                (cache_consistent_empty self)) as [E1 H2].
  destruct (_get_line_numbers_color self (3 # 10)%Q c1) as [col1 c2].
  cbn [fst snd] in E1, H2. rewrite <- E1.
  destruct col1 as [col1|]; [|discriminate].
  pose proof (_get_theme_style_consistent self Token_Text c2 H2) as H3.
  destruct (_get_theme_style self Token_Text c2) as [s2 c3].
  cbn [snd] in H3.
  pose proof (oblivious_line_numbers_color self (9 # 10)%Q c3 ∅ H3
                (cache_consistent_empty self)) as [E2 _].
  destruct (_get_line_numbers_color self (9 # 10)%Q c3) as [col2 c4].
  cbn [fst] in E2. rewrite <- E2.
  destruct col2 as [col2|]; [|discriminate].
  cbn [fst]. intros Heq. simplify_eq.
  unfold Style_chain, Style_add, Style_init. cbn.
  repeat split; try reflexivity.
  - destruct (_bgcolor s1); by eexists.
  - destruct (_bgcolor s2); by eexists.
Qed.

(** Where the console reports fewer colours, computing the number styles
    always succeeds and does not touch the cache: both number styles are
    the empty style. *)
Lemma number_styles_few_colors (self : Syntax) (console : Console)
  (cache : StyleCache) :
  has_full_colors console = false ->
  _get_number_styles self console cache
  = (Some (mkStyle None
             (Some (Color_parse
                      (background_color (_pygments_style_class self))))
             None None None,
           Style_empty, Style_empty), cache).
Proof.
  intros Hf. unfold _get_number_styles. rewrite Hf. reflexivity.
Qed.


End NumbersColumn.

(** ** The rendered lines *)

Section RenderedLines.

Context {collab : Collaborators}.

Lemma enumerate_lookup {A} (xs : list A) : forall n i,
  enumerate xs n !! i = (fun x => (n + Z.of_nat i, x)) <$> xs !! i.
Proof.
  induction xs as [|x xs IH]; intros n i; [reflexivity|].
  destruct i as [|i]; simpl.
  - by rewrite Z.add_0_r.
  - rewrite IH. destruct (xs !! i); simpl; [|reflexivity].
    do 2 f_equal. lia.
Qed.

Lemma slice_lookup_Some {A} (xs : list A) lo hi i x :
  0 <= lo ->
  slice xs lo hi !! i = Some x ->
  xs !! (Z.to_nat lo + i)%nat = Some x.
Proof.
  intros Hlo. unfold slice, clamp_index.
  destruct (Z.ltb_spec lo 0) as [|_]; [lia|].
  intros Hs. apply lookup_take_Some in Hs as [Hs _].
  rewrite lookup_drop in Hs.
  pose proof (lookup_lt_Some _ _ _ Hs) as Hlt. unfold len in *.
  replace (Z.to_nat lo) with (Z.to_nat (Z.min lo (Z.of_nat (length xs))))
    by lia.
  exact Hs.
Qed.

Lemma slice_lookup {A} (xs : list A) lo hi i :
  0 <= lo -> 0 <= hi ->
  slice xs lo hi !! i
  = if decide (lo + Z.of_nat i < hi) then xs !! (Z.to_nat lo + i)%nat
    else None.
Proof.
  intros Hlo Hhi. unfold slice, clamp_index.
  destruct (Z.ltb_spec lo 0) as [|_]; [lia|].
  destruct (Z.ltb_spec hi 0) as [|_]; [lia|].
  unfold len. rewrite lookup_take, lookup_drop.
  destruct (xs !! (Z.to_nat lo + i)%nat) as [x|] eqn:Hx.
  - pose proof (lookup_lt_Some _ _ _ Hx) as Hlt.
    replace (Z.to_nat (Z.min lo (Z.of_nat (length xs)))) with (Z.to_nat lo)
      by lia.
    rewrite Hx. repeat case_decide; try reflexivity; lia.
  - apply lookup_ge_None in Hx.
    rewrite (lookup_ge_None_2 xs) by lia.
    repeat case_decide; reflexivity.
Qed.

(** X17: every line [__console__] renders is a line of the split run,
    and its number is the start line plus its position in the run,
    counted from 0: whatever the line range, a line keeps the number it
    has in the whole code. *)
Theorem X17_rendered_line_number (self : Syntax) (text : Text) (i : nat)
  (no : Z) (line : Text) :
  numbered_lines self text !! i = Some (no, line) ->
  no = start_line self + (range_offset self + Z.of_nat i) /\
  Text_split text [nl] !! (Z.to_nat (range_offset self) + i)%nat = Some line.
Proof.
  unfold numbered_lines, range_offset. intros Hn.
  destruct (line_range self) as [[s e]|].
  - rewrite enumerate_lookup in Hn.
    destruct (slice (Text_split text [nl]) (Z.max 0 (s - 1)) e !! i)
      as [l|] eqn:Hs; [|discriminate].
    simpl in Hn. simplify_eq. split; [lia|].
    by apply (slice_lookup_Some _ _ e); [lia|].
  - rewrite enumerate_lookup in Hn.
    destruct (Text_split text [nl] !! i) as [l|] eqn:Hs; [|discriminate].
    simpl in Hn. simplify_eq. split; [lia|exact Hs].
Qed.

(** X18: with a line range whose end is not negative, the lines rendered
    are the lines of the split run from the start of the range to its
    end, both counted from 1 and included, as far as the run has them; a
    start below 1 counts as 1. *)
Theorem X18_line_range_lines (self : Syntax) (text : Text) (s e : Z)
  (i : nat) :
  line_range self = Some (s, e) ->
  0 <= e ->
  numbered_lines self text !! i
  = if decide (Z.max 1 s + Z.of_nat i <= e)
    then (fun line => (start_line self + (Z.max 1 s - 1) + Z.of_nat i, line))
           <$> Text_split text [nl] !! (Z.to_nat (Z.max 1 s - 1) + i)%nat
    else None.
Proof.
  intros Hr He. unfold numbered_lines. rewrite Hr.
  rewrite enumerate_lookup, slice_lookup by lia.
  replace (Z.max 0 (s - 1)) with (Z.max 1 s - 1) by lia.
  repeat case_decide; try lia; reflexivity.
Qed.

(** X19: without a line range every line of the split run is rendered,
    in order, numbered from the start line on. *)
Theorem X19_all_lines_without_range (self : Syntax) (text : Text) :
  line_range self = None ->
  (numbered_lines self text).*2 = Text_split text [nl] /\
  forall i : nat, (i < length (Text_split text [nl]))%nat ->
    (numbered_lines self text).*1 !! i = Some (start_line self + Z.of_nat i).
Proof.
  intros Hr. unfold numbered_lines. rewrite Hr, Z.add_0_r.
  generalize (start_line self) as n.
  induction (Text_split text [nl]) as [|l ls IH]; intros n;
    [split; [reflexivity|simpl; lia]|].
  destruct (IH (n + 1)) as [H2 H1]. split.
  - simpl. f_equal. exact H2.
  - intros [|i] Hi; simpl.
    + by rewrite Z.add_0_r.
    + rewrite H1 by (simpl in Hi; lia). f_equal. lia.
Qed.

Lemma decimal_digits_mono a b da db :
  0 <= a <= b -> decimal_digits a da -> decimal_digits b db -> da <= db.
Proof.
  intros Hab (Ha1 & Ha2 & Ha3) (Hb1 & Hb2 & Hb3).
  destruct (Z.le_gt_cases da db) as [|Hgt]; [done|exfalso].
  destruct Ha3 as [->|Ha3]; [lia|].
  assert (10 ^ db <= 10 ^ (da - 1)) by (apply Z.pow_le_mono_r; lia). lia.
Qed.

Lemma len_rjust s width : len (rjust s width) = Z.max width (len s).
Proof.
  unfold rjust. destruct (Z.leb_spec width (len s)); [lia|].
  rewrite len_app. unfold len at 1. rewrite length_replicate.
  unfold len in *. lia.
Qed.

(** X20: with line numbers, every number from 0 to the start line plus the
    number of line breaks of the code fits the numbers column: justified
    and followed by its space it is one character narrower than the
    column, so the numbers of all lines end in the same column. *)
Theorem X20_line_numbers_fit (self : Syntax) (no : Z) :
  line_numbers self = true ->
  0 <= no <= start_line self + count nl (code self) ->
  len (rjust (str_of_int no) (_numbers_column_width self - 2) ++ str " ")
  = _numbers_column_width self - 1.
Proof.
  intros Hln Hno. unfold _numbers_column_width. rewrite Hln.
  rewrite len_app, len_rjust.
  change (len (str " ")) with 1.
  assert (Hsum : 0 <= start_line self + count nl (code self)) by lia.
  pose proof (decimal_digits_mono no (start_line self + count nl (code self))
                _ _ Hno
                (str_of_int_digits no (proj1 Hno))
                (str_of_int_digits _ Hsum)).
  lia.
Qed.

Lemma theme_style_ext s1 s2 t cache :
  _pygments_style_class s1 = _pygments_style_class s2 ->
  _background_color s1 = _background_color s2 ->
  _get_theme_style s1 t cache = _get_theme_style s2 t cache.
Proof. intros H1 H2. unfold _get_theme_style. by rewrite H1, H2. Qed.

Lemma append_tokens_ext s1 s2 tokens :
  _pygments_style_class s1 = _pygments_style_class s2 ->
  _background_color s1 = _background_color s2 ->
  forall text cache,
    append_tokens s1 tokens text cache = append_tokens s2 tokens text cache.
Proof.
  intros H1 H2.
  induction tokens as [|[t token] tokens IH]; intros text cache;
    [reflexivity|].
  simpl. unfold St_bind. rewrite (theme_style_ext s1 s2) by done.
  destruct (_get_theme_style s2 t cache). apply IH.
Qed.

Lemma highlight_ext s1 s2 lexer cache :
  code s1 = code s2 -> tab_size s1 = tab_size s2 ->
  _pygments_style_class s1 = _pygments_style_class s2 ->
  _background_color s1 = _background_color s2 ->
  _highlight s1 lexer cache = _highlight s2 lexer cache.
Proof.
  intros Hc Ht H1 H2. unfold _highlight, _get_default_style, St_bind, St_ret.
  rewrite (theme_style_ext s1 s2) by done. rewrite Hc, Ht, H1.
  destruct (_get_theme_style s2 Token_Text cache) as [style cache'].
  destruct (get_lexer_by_name lexer); [|reflexivity].
  by apply append_tokens_ext.
Qed.

Lemma number_styles_ext s1 s2 console cache :
  _pygments_style_class s1 = _pygments_style_class s2 ->
  _background_color s1 = _background_color s2 ->
  _get_number_styles s1 console cache = _get_number_styles s2 console cache.
Proof.
  intros H1 H2.
  unfold _get_number_styles, _get_line_numbers_color, St_bind, St_ret.
  rewrite H1.
  destruct (has_full_colors console); [|reflexivity].
  rewrite (theme_style_ext s1 s2 Token_Text cache) by done.
  destruct (_get_theme_style s2 Token_Text cache) as [a1 c1].
  rewrite (theme_style_ext s1 s2 Token_Text c1) by done.
  destruct (_get_theme_style s2 Token_Text c1) as [a2 c2].
  destruct (_color a2) as [fg|]; [destruct (triplet fg)|]; try reflexivity.
  - rewrite (theme_style_ext s1 s2 Token_Text c2) by done.
    destruct (_get_theme_style s2 Token_Text c2) as [a3 c3].
    rewrite (theme_style_ext s1 s2 Token_Text c3) by done.
    reflexivity.
  - rewrite (theme_style_ext s1 s2 Token_Text c2) by done.
    destruct (_get_theme_style s2 Token_Text c2) as [a3 c3].
    rewrite (theme_style_ext s1 s2 Token_Text c3) by done.
    reflexivity.
Qed.

Lemma console_without_numbers_ext s1 s2 console options cache :
  line_numbers s1 = false -> line_numbers s2 = false ->
  code s1 = code s2 -> lexer_name s1 = lexer_name s2 ->
  code_width s1 = code_width s2 -> tab_size s1 = tab_size s2 ->
  _pygments_style_class s1 = _pygments_style_class s2 ->
  _background_color s1 = _background_color s2 ->
  __console__ s1 console options cache = __console__ s2 console options cache.
Proof.
  intros Hl1 Hl2 Hc Hlx Hcw Hts Hcls Hbg. unfold __console__, St_bind.
  rewrite Hl1, Hl2, Hlx, Hcw. cbn [negb].
  by rewrite (highlight_ext s1 s2).
Qed.

(** X21: without line numbers, the start line, the line range and the
    highlighted lines have no effect on what [__console__] yields. *)
Theorem X21_options_unused_without_numbers (c lx : pystr) (d : bool)
  (sl sl' : Z) (lr lr' : option (Z * Z)) (hl hl' : gset Z)
  (cw : option Z) (ts : Z) (cls : PygmentsStyle) (bg : pystr)
  (console : Console) (options : ConsoleOptions) (cache : StyleCache) :
  __console__ (mkSyntax c lx d false sl lr hl cw ts cls bg)
    console options cache
  = __console__ (mkSyntax c lx d false sl' lr' hl' cw ts cls bg)
      console options cache.
Proof.
  unfold __console__, St_bind. cbn [lexer_name line_numbers negb code_width].
  rewrite (highlight_ext (mkSyntax c lx d false sl lr hl cw ts cls bg)
             (mkSyntax c lx d false sl' lr' hl' cw ts cls bg))
    by reflexivity.
  reflexivity.
Qed.

(** X22: highlighting a line that is not rendered changes nothing: two
    sets of highlighted lines that agree on the numbers of the rendered
    lines give the same output. *)
Theorem X22_highlight_outside_range (c lx : pystr) (d ln : bool) (sl : Z)
  (lr : option (Z * Z)) (hl hl' : gset Z) (cw : option Z) (ts : Z)
  (cls : PygmentsStyle) (bg : pystr) (console : Console)
  (options : ConsoleOptions) (cache : StyleCache) :
  (forall no line,
     (no, line) ∈ numbered_lines (mkSyntax c lx d ln sl lr hl cw ts cls bg)
                    (_highlight (mkSyntax c lx d ln sl lr hl cw ts cls bg)
                       lx cache).1 ->
     no ∈ hl <-> no ∈ hl') ->
  __console__ (mkSyntax c lx d ln sl lr hl cw ts cls bg)
    console options cache
  = __console__ (mkSyntax c lx d ln sl lr hl' cw ts cls bg)
      console options cache.
Proof.
  intros Hagree.
  destruct ln; [|by apply console_without_numbers_ext].
  rewrite !console_with_line_numbers by reflexivity.
  cbn [lexer_name] in *.
  rewrite (highlight_ext (mkSyntax c lx d true sl lr hl' cw ts cls bg)
             (mkSyntax c lx d true sl lr hl cw ts cls bg))
    by reflexivity.
  destruct (_highlight (mkSyntax c lx d true sl lr hl cw ts cls bg) lx cache)
    as [text c1]. cbn [fst] in Hagree.
  rewrite (number_styles_ext (mkSyntax c lx d true sl lr hl' cw ts cls bg)
             (mkSyntax c lx d true sl lr hl cw ts cls bg))
    by reflexivity.
  destruct (_get_number_styles (mkSyntax c lx d true sl lr hl cw ts cls bg)
              console c1) as [[[[bgs ns] hns]|] c2]; [|reflexivity].
  do 3 f_equal.
  change (numbered_lines (mkSyntax c lx d true sl lr hl' cw ts cls bg) text)
    with (numbered_lines (mkSyntax c lx d true sl lr hl cw ts cls bg) text).
  induction (numbered_lines (mkSyntax c lx d true sl lr hl cw ts cls bg) text)
    as [|[no line] rest IH]; [reflexivity|].
  cbn [flat_map]. f_equal.
  - unfold render_line.
    pose proof (Hagree no line ltac:(left)) as Hno.
    induction (iter_first _) as [|[first row] rows IHr]; [reflexivity|].
    cbn [flat_map]. f_equal; [|exact IHr].
    unfold render_row.
    cbn [highlight_lines code_width line_numbers].
    destruct first; [|reflexivity].
    destruct (decide (no ∈ hl)) as [Hin|Hnin].
    + rewrite !bool_decide_eq_true_2 by tauto. reflexivity.
    + rewrite !bool_decide_eq_false_2 by tauto. reflexivity.
  - apply IH. intros no' line' Hin. apply (Hagree no' line'). by right.
Qed.

(** X23: with a code width and without line numbers, the run is rendered
    by the console at exactly the width the measurement announces. *)
Theorem X23_fixed_width_without_numbers (self : Syntax) (console : Console)
  (options : ConsoleOptions) (cache : StyleCache) (w max_width : Z) :
  line_numbers self = false ->
  code_width self = Some w ->
  __measure__ self console max_width = (w, w) /\
  (__console__ self console options cache).1
  = Some (RSegment <$>
            render console (_highlight self (lexer_name self) cache).1
              (mkConsoleOptions w w)).
Proof.
  intros Hln Hcw. split.
  - unfold __measure__, _numbers_column_width. rewrite Hcw, Hln.
    by rewrite Z.add_0_r.
  - unfold __console__, St_bind, St_ret. rewrite Hln, Hcw.
    by destruct (_highlight self (lexer_name self) cache).
Qed.

End RenderedLines.

(** ** Further concrete inputs *)

Lemma X4_render_twice_witness :
  (__console__ (collab := Demo.collaborators) Demo.numbered
     Demo.truecolor_console Demo.options
     (__console__ (collab := Demo.collaborators) Demo.numbered
        Demo.truecolor_console Demo.options ∅).2).1
  = (__console__ (collab := Demo.collaborators) Demo.numbered
       Demo.truecolor_console Demo.options ∅).1.
Proof.
  apply (X4_render_twice (collab := Demo.collaborators)).
  apply cache_consistent_empty.
Defined.

Lemma X5_highlight_ignores_cache_witness :
  (_highlight (collab := Demo.lexing_collaborators) Demo.lexed
     (str "prefix")
     (_highlight (collab := Demo.lexing_collaborators) Demo.lexed
        (str "prefix") ∅).2).1
  = (_highlight (collab := Demo.lexing_collaborators) Demo.lexed
       (str "prefix") ∅).1.
Proof.
  apply (X5_highlight_ignores_cache (collab := Demo.lexing_collaborators)).
  apply _highlight_consistent, cache_consistent_empty.
Defined.

Lemma X6_unknown_theme_falls_back_witness :
  Syntax_init (collab := Demo.lexing_collaborators) (str "x") (str "prefix")
    (inl DEFAULT_THEME) false false 1 None None None 4
  = Syntax_init (collab := Demo.lexing_collaborators) (str "x")
      (str "prefix") (inl (str "default")) false false 1 None None None 4.
Proof.
  apply (X6_unknown_theme_falls_back (collab := Demo.lexing_collaborators)).
  reflexivity.
Defined.

Lemma X9_from_path_fields_witness :
  read_file (Collaborators := Demo.lexing_collaborators) (str "demo.txt")
    (str "utf-8") = Some (str "x = 1") /\
  lexer_name
    (mkSyntax (str "x = 1") (str "prefix") true true 7 (Some (1, 2)) ∅
       (Some 20) 4 Demo.monokai (background_color Demo.monokai))
  = str "prefix".
Proof.
  destruct (X9_from_path_fields (collab := Demo.lexing_collaborators)
              (str "demo.txt") (str "utf-8") (inl DEFAULT_THEME) true true
              (Some (1, 2)) 7 None (Some 20) 8
              (mkSyntax (str "x = 1") (str "prefix") true true 7
                 (Some (1, 2)) ∅ (Some 20) 4 Demo.monokai
                 (background_color Demo.monokai))
              eq_refl) as (Hread & Hlexer & _).
  split; [exact Hread|exact Hlexer].
Defined.

Lemma X10_highlight_text_witness :
  plain (_highlight (collab := Demo.lexing_collaborators) Demo.lexed
           (str "prefix") ∅).1 = str "def f" /\
  justify (_highlight (collab := Demo.lexing_collaborators) Demo.lexed
             (str "prefix") ∅).1 = JLeft.
Proof.
  destruct (X10_highlight_text (collab := Demo.lexing_collaborators)
              Demo.lexed (str "prefix") Demo.prefix_lexer ∅ eq_refl)
    as (Hplain & _ & Hjustify & _).
  split; [exact Hplain|exact Hjustify].
Defined.

Lemma X11_highlight_spans_witness :
  spans (_highlight (collab := Demo.lexing_collaborators) Demo.lexed
           (str "prefix") ∅).1 !! 1%nat
  = Some (mkSpan 3 5
            (_get_theme_style (collab := Demo.lexing_collaborators)
               Demo.lexed Token_Text ∅).1).
Proof.
  apply (X11_highlight_spans (collab := Demo.lexing_collaborators)
           Demo.lexed (str "prefix") Demo.prefix_lexer ∅ 1 Token_Text
           (str " f")).
  - apply cache_consistent_empty.
  - reflexivity.
  - reflexivity.
Defined.

Lemma X13_line_numbers_color_witness :
  (_get_line_numbers_color (collab := Demo.collaborators) Demo.numbered
     (3 # 10)%Q ∅).1
  = Some (mkColor (str "rgb")
            (Some (Demo.blend (39, 40, 34) (248, 248, 242) (3 # 10)%Q))).
Proof.
  apply (X13_line_numbers_color (collab := Demo.collaborators) Demo.numbered
           (3 # 10)%Q ∅).
  apply cache_consistent_empty.
Defined.


Lemma X15_number_styles_full_colors_witness :
  exists bg ns hns,
    (_get_number_styles (collab := Demo.collaborators) Demo.numbered
       Demo.truecolor_console ∅).1 = Some (bg, ns, hns) /\
    bold hns = Some true /\
    _color ns = (_get_line_numbers_color (collab := Demo.collaborators)
                   Demo.numbered (3 # 10)%Q ∅).1.
Proof.
  eexists _, _, _. split; [reflexivity|].
  destruct (X15_number_styles_full_colors (collab := Demo.collaborators)
              Demo.numbered Demo.truecolor_console ∅ _ _ _
              (cache_consistent_empty _) eq_refl eq_refl)
    as (_ & Hns & _ & Hbold & _).
  split; [exact Hbold|exact Hns].
Defined.


Lemma X17_rendered_line_number_witness :
  exists line,
    numbered_lines (collab := Demo.collaborators) Demo.ranged
      (Text_init (code Demo.ranged) JLeft Style_empty 4) !! 1%nat
    = Some (13, line) /\
    Demo.split_text (Text_init (code Demo.ranged) JLeft Style_empty 4) [nl]
      !! 3%nat = Some line.
Proof.
  eexists. split; [reflexivity|].
  apply (X17_rendered_line_number (collab := Demo.collaborators) Demo.ranged
           (Text_init (code Demo.ranged) JLeft Style_empty 4) 1 13).
  reflexivity.
Defined.

Lemma X18_line_range_lines_witness :
  numbered_lines (collab := Demo.collaborators) Demo.ranged
    (Text_init (code Demo.ranged) JLeft Style_empty 4) !! 3%nat = None.
Proof.
  apply (X18_line_range_lines (collab := Demo.collaborators) Demo.ranged
           (Text_init (code Demo.ranged) JLeft Style_empty 4) 3 5 3).
  - reflexivity.
  - vm_compute. discriminate.
Defined.

Lemma X19_all_lines_without_range_witness :
  (numbered_lines (collab := Demo.collaborators) Demo.numbered
     (Text_init (code Demo.numbered) JLeft Style_empty 4)).*2
  = Demo.split_text (Text_init (code Demo.numbered) JLeft Style_empty 4) [nl].
Proof.
  apply (X19_all_lines_without_range (collab := Demo.collaborators)
           Demo.numbered).
  reflexivity.
Defined.

Lemma X20_line_numbers_fit_witness :
  len (rjust (str_of_int 2) (_numbers_column_width Demo.numbered - 2)
       ++ str " ")
  = _numbers_column_width Demo.numbered - 1.
Proof.
  apply (X20_line_numbers_fit Demo.numbered 2); [reflexivity|].
  vm_compute. split; discriminate.
Defined.

Lemma X22_highlight_outside_range_witness :
  __console__ (collab := Demo.collaborators)
    (mkSyntax (code Demo.ranged) (str "nolexer") false true 10 (Some (3, 5))
       ∅ (Some 4) 4 Demo.monokai (background_color Demo.monokai))
    Demo.console Demo.options ∅
  = __console__ (collab := Demo.collaborators)
      (mkSyntax (code Demo.ranged) (str "nolexer") false true 10
         (Some (3, 5)) {[1]} (Some 4) 4 Demo.monokai
         (background_color Demo.monokai))
      Demo.console Demo.options ∅.
Proof.
  apply (X22_highlight_outside_range (collab := Demo.collaborators)).
  intros no line Hin.
  assert (Hno : no ∈ [12; 13; 14]).
  { apply (list_elem_of_fmap_2 fst) in Hin. exact Hin. }
  set_solver.
Defined.

Lemma X23_fixed_width_without_numbers_witness :
  __measure__ (Demo.syntax (str "ab") false false 1 None ∅ (Some 7))
    Demo.console 80 = (7, 7).
Proof.
  apply (X23_fixed_width_without_numbers (collab := Demo.collaborators)
           (Demo.syntax (str "ab") false false 1 None ∅ (Some 7))
           Demo.console Demo.options ∅ 7 80);
    reflexivity.
Defined.
